(** * Billions attestations examples: a shallow embedding

    The repository is a set of command-line scripts around four registries
    (State, AuthVerifier, SchemaRegistry, AttestationRegistry) and an HTTP
    index of attestations.  This development embeds

    - [WalletSetup]: [prepareZkpProof] and [packZkpProof] (src/walletSetup.ts);
    - [Utils]: [checkAuthenticationAuthV2] (src/utils.ts; the review script
      carries the same function inline, reading the settings from its
      module-level constants);
    - [Attest]: the [main] functions of scripts/createReview.ts and
      scripts/createOwnership.ts;
    - [IdentityReviews]: [getReviewsForAgent] and [main] of
      scripts/identityReviews.ts;
    - [Revoke]: [checkRequiredParams] and [main] of
      scripts/revokeAttestation.ts.

    [MockIndex] and [MockChain] are canned environments on which the
    scripts run by computation; [Observe] and [ObserveIndex] read traces.

    Conventions.  A JavaScript [bigint] is a [Z]; a JavaScript [number] is an
    IEEE-754 binary64 value ([spec_float] with precision 53); a string is a
    [string]; an array is a [list]; a value that may be [undefined] is an
    [option].  An [async] function that may throw is a function of the state
    of the outside world returning a [Result]; every call that leaves the
    process is recorded, with its outcome, in a chronological trace.  Console
    output is modelled for the listing script only, where it is the result. *)

From Stdlib Require Import ZArith List String Ascii Bool Lia.
From Stdlib Require Import DecimalString DecimalZ DecimalNat.
From Stdlib Require Import SpecFloat Permutation.
Import ListNotations.

Set Warnings "-register-all".

Local Open Scope string_scope.
Local Open Scope Z_scope.

(* ================================================================== *)
(** ** JavaScript values, exceptions and builtins *)

Module JS.

(** A thrown value: an [Error] (or a subclass) with its [name] and
    [message]. *)
Record JsError : Type := mkError { err_name : string; err_message : string }.

Definition Error (msg : string) : JsError := mkError "Error" msg.
Definition TypeError (msg : string) : JsError := mkError "TypeError" msg.

(** [Error.prototype.toString], which a template literal [`${e}`] calls. *)
Definition error_toString (e : JsError) : string :=
  if String.eqb (err_name e) "" then err_message e
  else if String.eqb (err_message e) "" then err_name e
  else err_name e ++ ": " ++ err_message e.

Inductive Result (A : Type) : Type :=
| Ok (a : A)
| Throw (e : JsError).
Arguments Ok {A} a.
Arguments Throw {A} e.

(** [x || d] on an optional string: [undefined] and [""] are falsy. *)
Definition or_default (x : option string) (d : string) : string :=
  match x with
  | Some s => if String.eqb s "" then d else s
  | None => d
  end.

(** [!x] on an optional string. *)
Definition falsy (x : option string) : bool :=
  match x with
  | Some s => String.eqb s ""
  | None => true
  end.

(** [`${x}`] on an optional string. *)
Definition template (x : option string) : string :=
  match x with Some s => s | None => "undefined" end.

(** [BigInt.prototype.toString]: the decimal digits, with a minus sign. *)
Definition BigInt_toString (z : Z) : string :=
  NilEmpty.string_of_int (Z.to_int z).

(** The decimal digits of an array length or loop counter. *)
Definition nat_toString (n : nat) : string :=
  NilEmpty.string_of_uint (Nat.to_uint n).

(** [Array.prototype.slice(0, n)]. *)
Definition slice0 {A} (n : nat) (l : list A) : list A := firstn n l.

(** [String.prototype.startsWith]. *)
Definition startsWith (s p : string) : bool := String.prefix p s.

(** *** binary64 numbers *)

Definition prec : Z := 53.
Definition emax : Z := 1024.

Definition number : Type := spec_float.

Definition number_of_Z (z : Z) : number := binary_normalize prec emax z 0 false.
Definition number_of_nat (n : nat) : number := number_of_Z (Z.of_nat n).
Definition number_add : number -> number -> number := SFadd prec emax.
Definition number_div : number -> number -> number := SFdiv prec emax.

(** [Number.prototype.toFixed(f)].  For a finite [x = m * 2^e] below
    [10^21] the digits are those of the integer [n] nearest to [x * 10^f],
    the larger one in a tie; a value at or above [10^21], an infinity or a
    NaN is rendered by [Number::toString], which is a parameter. *)
Definition pad_zeros (k : nat) (s : string) : string :=
  String.concat "" (repeat "0" k) ++ s.

Definition fixed_digits (f : nat) (n : Z) : string :=
  let m := BigInt_toString n in
  match f with
  | O => m
  | _ =>
    let k := String.length m in
    let m := if Nat.leb k f then pad_zeros (f + 1 - k) m else m in
    let k := String.length m in
    String.substring 0 (k - f) m ++ "." ++ String.substring (k - f) f m
  end.

Definition Number_toFixed (Number_toString : number -> string)
           (f : nat) (x : number) : string :=
  match x with
  | S754_nan => Number_toString x
  | S754_infinity _ => Number_toString x
  | S754_zero _ => fixed_digits f 0
  | S754_finite s m e =>
    let p := 10 ^ Z.of_nat f in
    let big := if 0 <=? e then 10 ^ 21 <=? Zpos m * 2 ^ e
               else 10 ^ 21 * 2 ^ (- e) <=? Zpos m in
    let n := if 0 <=? e then p * Zpos m * 2 ^ e
             else (2 * p * Zpos m + 2 ^ (- e)) / 2 ^ (- e + 1) in
    if big then Number_toString x
    else (if s then "-" else "") ++ fixed_digits f n
  end.

End JS.
Import JS.

(* ================================================================== *)
(** ** src/walletSetup.ts *)

Module WalletSetup.

(** [ProofData] of js-jwz: a Groth16 proof as arrays of decimal strings. *)
Record ProofData : Type := mkProofData {
  pi_a : list string;
  pi_b : list (list string);
  pi_c : list string;
  protocol : string
}.

(** The values handed to the ABI coder: strings, [undefined], arrays. *)
Inductive AbiValue : Type :=
| VStr (s : string)
| VUndefined
| VArr (l : list AbiValue).

Definition VOpt (x : option string) : AbiValue :=
  match x with Some s => VStr s | None => VUndefined end.

Definition VStrs (l : list string) : AbiValue := VArr (map VStr l).

Record PreparedProof : Type := mkPrepared {
  a : list string;
  b : list (list (option string));
  c : list string
}.

(** [row[i]] on a row that may be [undefined]: reading an index of
    [undefined] throws, an index out of range yields [undefined]. *)
Definition row_at (rows : list (list string)) (i : nat) : Result (list string) :=
  match nth_error rows i with
  | Some r => Ok r
  | None => Throw (TypeError "Cannot read properties of undefined")
  end.

Definition prepareZkpProof (proof : ProofData) : Result PreparedProof :=
  match row_at (pi_b proof) 0, row_at (pi_b proof) 1 with
  | Ok r0, Ok r1 =>
    Ok {| a := slice0 2 (pi_a proof);
          b := [ [nth_error r0 1; nth_error r0 0];
                 [nth_error r1 1; nth_error r1 0] ];
          c := slice0 2 (pi_c proof) |}
  | Throw e, _ => Throw e
  | _, Throw e => Throw e
  end.

Section Pack.
(** [ethers.AbiCoder.encode(types, values)], an external collaborator. *)
Variable AbiCoder_encode : list string -> list AbiValue -> Result string.

Definition packZkpProof (inputs a : list string)
           (b : list (list (option string))) (c : list string) : Result string :=
  AbiCoder_encode
    ["uint256[] inputs"; "uint256[2]"; "uint256[2][2]"; "uint256[2]"]
    [VStrs inputs; VStrs a; VArr (map (fun r => VArr (map VOpt r)) b); VStrs c].
End Pack.

End WalletSetup.

(* ================================================================== *)
(** ** Effects: the outside world, exceptions and the trace of calls *)

Module Eff.

Section Monad.
Context {W Ev : Type}.

(** A computation reads and updates the state of the outside world [W],
    appends to the trace of calls, and returns or throws. *)
Definition M (A : Type) : Type := W * list Ev -> Result A * (W * list Ev).

Definition ret {A} (x : A) : M A := fun s => (Ok x, s).

Definition throw {A} (e : JsError) : M A := fun s => (Throw e, s).

Definition bind {A B} (m : M A) (k : A -> M B) : M B :=
  fun s => match m s with
           | (Ok x, s') => k x s'
           | (Throw e, s') => (Throw e, s')
           end.

(** A pure library call that may throw. *)
Definition lift {A} (r : Result A) : M A := fun s => (r, s).

(** [try { body } catch (e) { handler e }]. *)
Definition try_catch {A} (body : M A) (handler : JsError -> M A) : M A :=
  fun s => match body s with
           | (Ok x, s') => (Ok x, s')
           | (Throw e, s') => handler e s'
           end.

(** A call that leaves the process: it runs against the world and is logged
    with its outcome. *)
Definition perform {A} (op : W -> Result A * W) (ev : Result A -> Ev) : M A :=
  fun '(w, tr) => let '(r, w') := op w in (r, (w', (tr ++ [ev r])%list)).

(** Running a computation from a world and an empty trace. *)
Definition run {A} (m : M A) (w : W) : Result A * (W * list Ev) := m (w, []).

(** [main().then(() => process.exit(0)).catch(() => process.exit(1))]. *)
Definition exit_code {A} (r : Result A) : Z :=
  match r with Ok _ => 0 | Throw _ => 1 end.

End Monad.

Arguments M : clear implicits.

Declare Scope eff_scope.
Delimit Scope eff_scope with eff.
Notation "x <- m ;; k" := (bind m (fun x => k))
  (at level 61, m at next level, right associativity) : eff_scope.
Notation "m ;;; k" := (bind m (fun _ => k))
  (at level 61, right associativity) : eff_scope.

End Eff.
Import Eff.
Local Open Scope eff_scope.

(* ================================================================== *)
(** ** The chain, the identity SDK and the calls the scripts make *)

Module Chain.
Import WalletSetup.

(** [Wallet]: the signer; [getAddress] is local to it. *)
Record Wallet : Type := mkWallet { privateKey : string; address : string }.

(** [new ethers.Contract(target, abi, runner)]. *)
Record Contract : Type := mkContract { target : string; runner : Wallet }.

Record SchemaRecord : Type := mkSchemaRecord {
  sr_id : string;
  sr_schema : string;
  sr_resolver : string;
  sr_revocable : bool
}.

Record RevocationOpts : Type := mkRevocationOpts { ro_type : string; ro_id : string }.

Record IdentityCreationOptions : Type := mkIdentityCreationOptions {
  method : string;
  blockchain : string;
  networkId : string;
  revocationOpts : RevocationOpts
}.

(** A DID object, identified by its string. *)
Definition DID : Type := string.

Record ZeroKnowledgeProofAuthResponse : Type := mkZkp {
  proof : ProofData;
  pub_signals : list string
}.

Record AuthResponse : Type := mkAuthResponse { authMethod : string; ar_proof : string }.

Record Tx : Type := mkTx { hash : string }.

Record Log : Type := mkLog { topics : list string; data : string }.

Record Receipt : Type := mkReceipt { logs : list Log; gasUsed : Z }.

(** What [interface.parseLog] returns for a log it recognises. *)
Record LogDescription : Type := mkLogDescription { name : string; args : list string }.

(** [iden3Id] is a [bigint] for the attester and the string of the command
    line for the recipient. *)
Inductive IdValue : Type :=
| IdBig (z : Z)
| IdStr (s : string).

Record Party : Type := mkParty {
  did : string;
  iden3Id : IdValue;
  ethereumAddress : string
}.

Record AttestationRequest : Type := mkRequest {
  rq_schemaId : string;
  rq_attester : Party;
  rq_recipient : Party;
  rq_expirationTime : Z;
  rq_revocable : bool;
  rq_refId : string;
  rq_data : string
}.

Record StoredAttestation : Type := mkStored {
  sa_id : string;
  sa_schemaId : string;
  sa_attester : Party;
  sa_data : string
}.

(** The calls that leave the process, each with its outcome. *)
Inductive Event : Type :=
| CreateIdentity (opts : IdentityCreationOptions) (r : Result DID)
| GetSchema (schemaId : string) (r : Result SchemaRecord)
| GetDefaultIdType (r : Result string)
| GetIdByAddress (addr : string) (r : Result Z)
| GenerateAuthProof (circuit : string) (d : DID) (challenge : Z)
                    (r : Result ZeroKnowledgeProofAuthResponse)
| AuthMethodExists (m : string) (r : Result bool)
| SubmitResponse (resp : AuthResponse) (r : Result Tx)
| TxWait (tx : Tx) (r : Result (option Receipt))
| RecordAttestation (req : AttestationRequest) (r : Result Tx)
| GetAttestation (attestationId : option string) (r : Result StoredAttestation)
| IsAttestationValid (attestationId : option string) (r : Result bool).

(** A write transaction is a call that changes a registry. *)
Definition is_write (ev : Event) : bool :=
  match ev with
  | SubmitResponse _ _ | RecordAttestation _ _ => true
  | _ => false
  end.

Definition writes (tr : list Event) : list Event := filter is_write tr.

Definition is_attestation_write (ev : Event) : bool :=
  match ev with RecordAttestation _ _ => true | _ => false end.

(** The external collaborators over a world [W]: the identity SDK, the four
    registries behind a contract handle, and the pure library functions. *)
Record Externals (W : Type) : Type := mkExternals {
  identityWallet_createIdentity : IdentityCreationOptions -> W -> Result DID * W;
  getSchema : Contract -> string -> W -> Result SchemaRecord * W;
  getDefaultIdType : Contract -> W -> Result string * W;
  getIdByAddress : Contract -> string -> W -> Result Z * W;
  proofService_generateAuthProof :
    string -> DID -> Z -> W -> Result ZeroKnowledgeProofAuthResponse * W;
  authMethodExists : Contract -> string -> W -> Result bool * W;
  submitResponse : Contract -> AuthResponse -> W -> Result Tx * W;
  wait : Tx -> W -> Result (option Receipt) * W;
  recordAttestation : Contract -> AttestationRequest -> W -> Result Tx * W;
  getAttestation : Contract -> option string -> W -> Result StoredAttestation * W;
  isAttestationValid : Contract -> option string -> W -> Result bool * W;
  Wallet_new : string -> string -> Result Wallet;
  DID_idFromDID : DID -> Result Z;
  DID_parseFromId : Z -> Result string;
  calcChallengeAuthV2 : string -> Result Z;
  AbiCoder_encode : list string -> list AbiValue -> Result string;
  AbiCoder_decode : list string -> string -> Result (list string);
  parseLog : Contract -> Log -> Result (option LogDescription)
}.

Arguments identityWallet_createIdentity {W}.
Arguments getSchema {W}.
Arguments getDefaultIdType {W}.
Arguments getIdByAddress {W}.
Arguments proofService_generateAuthProof {W}.
Arguments authMethodExists {W}.
Arguments submitResponse {W}.
Arguments wait {W}.
Arguments recordAttestation {W}.
Arguments getAttestation {W}.
Arguments isAttestationValid {W}.
Arguments Wallet_new {W}.
Arguments DID_idFromDID {W}.
Arguments DID_parseFromId {W}.
Arguments calcChallengeAuthV2 {W}.
Arguments AbiCoder_encode {W}.
Arguments AbiCoder_decode {W}.
Arguments parseLog {W}.

End Chain.
Import Chain.

(* ================================================================== *)
(** ** src/utils.ts *)

Module Utils.
Import WalletSetup.

Record Opts : Type := mkOpts {
  rpcUrl : string;
  rhsUrl : string;
  circuitsPath : string;
  stateContractAddress : string;
  authVerifierContractAddress : string;
  attestationRegistryContractAddress : string;
  schemaRegistryContractAddress : string;
  chainId : string
}.

Record AuthResult : Type := mkAuthResult {
  userId : Z;
  userDid : string;
  attestationRegistry : Contract;
  signerAddress : string
}.

Definition ZeroHash : string :=
  "0x0000000000000000000000000000000000000000000000000000000000000000".

Definition invalid_schema_format : JsError :=
  Error "Invalid schema Id format. Expected 32-byte hex string with 0x prefix".

Definition schema_not_found (schemaId : string) : JsError :=
  Error ("Schema with Id " ++ schemaId ++ " not found").

Definition auth_method_not_found : JsError := Error "authV2 auth method not found".

Definition still_zero : JsError :=
  Error "Authentication failed - user ID is still 0 after authentication".

Definition method_error : JsError :=
  Error "Authentication failed: The ethIdentity auth method is either not registered or not properly configured in the AuthVerifier contract. Make sure to deploy and register the ethIdentity validator first.".

Definition could_not_authenticate (authError : JsError) : JsError :=
  Error ("Could not authenticate: " ++ error_toString authError).

Definition user_authentication_failed (error : JsError) : JsError :=
  Error ("User authentication failed. Cannot proceed with attestation creation. Error: "
         ++ error_toString error).

(** The guard of line 51. *)
Definition schemaId_rejected (schemaId : string) : bool :=
  negb (startsWith schemaId "0x") || negb (Nat.eqb (String.length schemaId) 66).

(** The guard of line 149: [currentUserId === 0n || currentUserId != userId]. *)
Definition needsAuthentication (currentUserId userId : Z) : bool :=
  (currentUserId =? 0) || negb (currentUserId =? userId).

(** The guard of line 236: [currentUserId.toString() !== userId.toString()]. *)
Definition idsDiffer (currentUserId userId : Z) : bool :=
  negb (String.eqb (BigInt_toString currentUserId) (BigInt_toString userId)).

Definition defaultIdentityCreationOptions (opts : Opts) : IdentityCreationOptions :=
  {| method := "iden3";
     blockchain := "billions";
     networkId := "test";
     revocationOpts := {| ro_type := "Iden3ReverseSparseMerkleTreeProof";
                          ro_id := rhsUrl opts |} |}.

Section WithExternals.
Context {W : Type} (E : Externals W).

(** The body of the innermost [try] (lines 180-216). *)
Definition submitAuthentication (authVerifier : Contract) (signerAddress : string)
           (authResponse : AuthResponse) : M W Event unit :=
  authMethodExists_ <- perform (authMethodExists E authVerifier "authV2")
                               (AuthMethodExists "authV2") ;;
  if negb authMethodExists_ then throw auth_method_not_found
  else
    authTx <- perform (submitResponse E authVerifier authResponse)
                      (SubmitResponse authResponse) ;;
    _ <- perform (wait E authTx) (TxWait authTx) ;;
    currentUserId <- perform (getIdByAddress E authVerifier signerAddress)
                             (GetIdByAddress signerAddress) ;;
    if currentUserId =? 0 then throw still_zero else ret tt.

(** The [if] branch of line 149 with its three nested [try] blocks. *)
Definition authenticate (authVerifier : Contract) (signerAddress : string)
           (userDID : DID) : M W Event unit :=
  try_catch
    (challengeAuth <- lift (calcChallengeAuthV2 E signerAddress) ;;
     zkpRes <- perform (proofService_generateAuthProof E "authV2" userDID challengeAuth)
                       (GenerateAuthProof "authV2" userDID challengeAuth) ;;
     preparedZkpProof <- lift (prepareZkpProof (proof zkpRes)) ;;
     encodedAuthProof <- lift (packZkpProof (AbiCoder_encode E) (pub_signals zkpRes)
                                 (a preparedZkpProof) (b preparedZkpProof)
                                 (c preparedZkpProof)) ;;
     let authResponse := {| authMethod := "authV2"; ar_proof := encodedAuthProof |} in
     try_catch
       (try_catch (submitAuthentication authVerifier signerAddress authResponse)
                  (fun methodError => throw method_error))
       (fun authError => throw (could_not_authenticate authError)))
    (fun error => throw (user_authentication_failed error)).

Definition checkAuthenticationAuthV2 (schemaId : string) (wallet : Wallet)
           (opts : Opts) : M W Event AuthResult :=
  if schemaId_rejected schemaId then throw invalid_schema_format
  else
    let state := mkContract (stateContractAddress opts) wallet in
    (* in-memory storage, wallets, circuit storage and proof service are
       built locally *)
    userDID <- perform (identityWallet_createIdentity E (defaultIdentityCreationOptions opts))
                       (CreateIdentity (defaultIdentityCreationOptions opts)) ;;
    let schemaRegistry := mkContract (schemaRegistryContractAddress opts) wallet in
    let authVerifier := mkContract (authVerifierContractAddress opts) wallet in
    let attestationRegistry := mkContract (attestationRegistryContractAddress opts) wallet in
    schemaRecord <- perform (getSchema E schemaRegistry schemaId) (GetSchema schemaId) ;;
    if String.eqb (sr_id schemaRecord) ZeroHash then throw (schema_not_found schemaId)
    else
      let signerAddress := address wallet in
      defaultIdType <- perform (getDefaultIdType E state) GetDefaultIdType ;;
      userId <- lift (DID_idFromDID E userDID) ;;
      currentUserId <- perform (getIdByAddress E authVerifier signerAddress)
                               (GetIdByAddress signerAddress) ;;
      userId <- (if needsAuthentication currentUserId userId
                 then authenticate authVerifier signerAddress userDID ;;; ret userId
                 else if idsDiffer currentUserId userId then ret currentUserId
                      else ret userId) ;;
      userDid <- lift (DID_parseFromId E userId) ;;
      ret {| userId := userId;
             userDid := userDid;
             attestationRegistry := attestationRegistry;
             signerAddress := signerAddress |}.

End WithExternals.

End Utils.

(* ================================================================== *)
(** ** scripts/createReview.ts and scripts/createOwnership.ts *)

Module Attest.
Import WalletSetup Utils.

(** The environment variables a script reads at start-up. *)
Record Config : Type := mkConfig {
  env_schemaId : option string;
  env_privateKey : option string;
  env_rpcUrl : option string;
  env_stateContractAddress : option string;
  env_authVerifierContractAddress : option string;
  env_attestationRegistryContractAddress : option string;
  env_schemaRegistryContractAddress : option string;
  env_chainId : option string;
  env_rhsUrl : option string;
  env_circuitsPath : option string
}.

(** The [values] of [parseArgs]. *)
Record Values : Type := mkValues {
  stars : option string;
  comment : option string;
  recipientDid : option string;
  recipientId : option string;
  recipientAddress : option string
}.

(** What differs between the two scripts: the name of the schema variable
    and the payload that is encoded and decoded. *)
Record Script : Type := mkScript {
  schemaVariable : string;
  dataTypes : list string;
  dataValues : Values -> list AbiValue
}.

Definition createReview : Script :=
  {| schemaVariable := "REVIEW_ATTESTATION_SCHEMA";
     dataTypes := ["uint8"; "string"];
     dataValues := fun v => [VOpt (stars v); VOpt (comment v)] |}.

Definition createOwnership : Script :=
  {| schemaVariable := "OWNERSHIP_ATTESTATION_SCHEMA";
     dataTypes := ["bytes"];
     dataValues := fun _ => [VStr "0x"] |}.

Definition ZeroAddress : string := "0x0000000000000000000000000000000000000000".

Definition not_defined (variable : string) : JsError :=
  Error (variable ++ " is not defined in .env file").

Definition recipient_required : JsError :=
  Error "One of the recipient information is required (recipientDid, recipientId or recipientAddress)".

Definition record_id_missing : JsError :=
  Error "Failed to extract attestation Id from transaction events".

Definition checkRequiredParams (sc : Script) (cfg : Config) : Result unit :=
  if falsy (env_privateKey cfg) then Throw (not_defined "PRIVATE_KEY")
  else if falsy (env_rpcUrl cfg) then Throw (not_defined "BILLIONS_TESTNET_RPC_URL")
  else if falsy (env_stateContractAddress cfg)
       then Throw (not_defined "STATE_CONTRACT_ADDRESS")
  else if falsy (env_authVerifierContractAddress cfg)
       then Throw (not_defined "AUTH_VERIFIER_CONTRACT_ADDRESS")
  else if falsy (env_attestationRegistryContractAddress cfg)
       then Throw (not_defined "ATTESTATION_REGISTRY_CONTRACT_ADDRESS")
  else if falsy (env_schemaRegistryContractAddress cfg)
       then Throw (not_defined "SCHEMA_REGISTRY_CONTRACT_ADDRESS")
  else if falsy (env_chainId cfg) then Throw (not_defined "CHAIN_ID")
  else if falsy (env_rhsUrl cfg) then Throw (not_defined "RHS_URL")
  else if falsy (env_circuitsPath cfg) then Throw (not_defined "CIRCUITS_PATH")
  else if falsy (env_schemaId cfg) then Throw (not_defined (schemaVariable sc))
  else Ok tt.

Definition opts_of (cfg : Config) : Opts :=
  {| rpcUrl := template (env_rpcUrl cfg);
     rhsUrl := template (env_rhsUrl cfg);
     circuitsPath := template (env_circuitsPath cfg);
     stateContractAddress := template (env_stateContractAddress cfg);
     authVerifierContractAddress := template (env_authVerifierContractAddress cfg);
     attestationRegistryContractAddress :=
       template (env_attestationRegistryContractAddress cfg);
     schemaRegistryContractAddress := template (env_schemaRegistryContractAddress cfg);
     chainId := template (env_chainId cfg) |}.

(** [s.trim() === ""]: every character is white space (the ASCII white
    space and line terminators). *)
Definition is_whitespace (ch : ascii) : bool :=
  let n := nat_of_ascii ch in
  (Nat.leb 9 n && Nat.leb n 13) || Nat.eqb n 32.

Fixpoint trim_is_empty (s : string) : bool :=
  match s with
  | EmptyString => true
  | String ch s' => is_whitespace ch && trim_is_empty s'
  end.

Section WithExternals.
Context {W : Type} (E : Externals W).

(** The callback of [logs.find]: a log whose decoding throws, or that no
    event of the ABI matches, is not the one. *)
Definition isAttestationRecorded (registry : Contract) (log : Log) : bool :=
  match parseLog E registry log with
  | Ok (Some parsed) => String.eqb (name parsed) "AttestationRecorded"
  | Ok None => false
  | Throw _ => false
  end.

(** [receipt?.logs.find(...)]. *)
Definition findAttestationRecorded (registry : Contract)
           (receipt : option Receipt) : option Log :=
  match receipt with
  | Some r => find (isAttestationRecorded registry) (logs r)
  | None => None
  end.

(** Lines 384-429: the identifier is read from the event, the attestation
    is read back and its payload decoded; without the event the script
    fails. *)
Definition verifyAttestation (sc : Script) (registry : Contract)
           (receipt : option Receipt) : M W Event unit :=
  match findAttestationRecorded registry receipt with
  | Some attestationRecordedEvent =>
    parsed <- lift (parseLog E registry attestationRecordedEvent) ;;
    let attestationId := match parsed with
                         | Some p => nth_error (args p) 0
                         | None => None
                         end in
    storedAttestation <- perform (getAttestation E registry attestationId)
                                 (GetAttestation attestationId) ;;
    _ <- lift (AbiCoder_decode E (dataTypes sc) (sa_data storedAttestation)) ;;
    _ <- perform (isAttestationValid E registry attestationId)
                 (IsAttestationValid attestationId) ;;
    ret tt
  | None => throw record_id_missing
  end.

Definition main (sc : Script) (cfg : Config) (values : Values) : M W Event unit :=
  _ <- lift (checkRequiredParams sc cfg) ;;
  wallet <- lift (Wallet_new E (template (env_privateKey cfg)) (template (env_rpcUrl cfg))) ;;
  let recipientId := or_default (recipientId values) "0" in
  let recipientDid := or_default (recipientDid values) "" in
  let recipientAddress := or_default (recipientAddress values) ZeroAddress in
  if trim_is_empty recipientDid && String.eqb recipientId "0"
     && String.eqb recipientAddress ZeroAddress
  then throw recipient_required
  else
    let schemaId := template (env_schemaId cfg) in
    auth <- checkAuthenticationAuthV2 E schemaId wallet (opts_of cfg) ;;
    encodedData <- lift (AbiCoder_encode E (dataTypes sc) (dataValues sc values)) ;;
    let request :=
      {| rq_schemaId := schemaId;
         rq_attester := {| did := userDid auth;
                           iden3Id := IdBig (userId auth);
                           ethereumAddress := signerAddress auth |};
         rq_recipient := {| did := recipientDid;
                            iden3Id := IdStr recipientId;
                            ethereumAddress := recipientAddress |};
         rq_expirationTime := 0;
         rq_revocable := true;
         rq_refId := ZeroHash;
         rq_data := encodedData |} in
    tx <- perform (recordAttestation E (attestationRegistry auth) request)
                  (RecordAttestation request) ;;
    receipt <- perform (wait E tx) (TxWait tx) ;;
    verifyAttestation sc (attestationRegistry auth) receipt.

End WithExternals.

End Attest.

(* ================================================================== *)
(** ** scripts/identityReviews.ts *)

Module IdentityReviews.

(** A decoded field value: a JSON number or a JSON string. *)
Inductive JVal : Type :=
| JNum (x : number)
| JStr (s : string).

(** A field descriptor [{value: {name, value}}] of [decodedDataJson]. *)
Record Field : Type := mkField { f_name : string; f_value : JVal }.

Record Attestation : Type := mkAttestation {
  fromDid : string;
  decodedDataJson : string
}.

(** The response envelope [{data, totalPages}]. *)
Record Page : Type := mkPage { data : list Attestation; totalPages : Z }.

Inductive Event : Type :=
| HttpGet (url : string) (r : Result Page)
| ConsoleLog (line : string).

Definition requests (tr : list Event) : list string :=
  flat_map (fun ev => match ev with HttpGet url _ => [url] | ConsoleLog _ => [] end) tr.

Definition console (tr : list Event) : list string :=
  flat_map (fun ev => match ev with ConsoleLog l => [l] | HttpGet _ _ => [] end) tr.

Definition pageSize : Z := 20.

Definition undefined_value : JsError :=
  TypeError "Cannot read properties of undefined (reading 'value')".

(** [Array.prototype.reduce] with a callback that may throw. *)
Fixpoint reduce {A B} (f : B -> A -> Result B) (l : list A) (acc : B) : Result B :=
  match l with
  | [] => Ok acc
  | x :: l' =>
    match f acc x with
    | Ok acc' => reduce f l' acc'
    | Throw e => Throw e
    end
  end.

(** [fields.find(field => field.value.name === name)]. *)
Definition findField (fieldName : string) (fields : list Field) : option Field :=
  find (fun field => String.eqb (f_name field) fieldName) fields.

Section WithExternals.
Context {W : Type}.
(** [axios.get], [JSON.parse] and the two number conversions of the
    language are external. *)
Variable axios_get : string -> W -> Result Page * W.
Variable JSON_parse : string -> Result (list Field).
Variable StringToNumber : string -> number.
Variable Number_toString : number -> string.
(** [process.env.BILLIONS_ATTESTATIONS_API_URL] and
    [process.env.REVIEW_ATTESTATION_SCHEMA]. *)
Variable API_URL SCHEMA : option string.

Definition Number (v : JVal) : number :=
  match v with
  | JNum x => x
  | JStr s => StringToNumber s
  end.

Definition String_of (v : JVal) : string :=
  match v with
  | JNum x => Number_toString x
  | JStr s => s
  end.

Definition url (agentDid : option string) (page : Z) : string :=
  template API_URL ++ "/attestations?recipientDid=" ++ template agentDid
  ++ "&schemaId=" ++ template SCHEMA
  ++ "&page_number=" ++ BigInt_toString page
  ++ "&page_size=" ++ BigInt_toString pageSize.

Definition get (u : string) : M W Event Page := perform (axios_get u) (HttpGet u).

Definition log (line : string) : M W Event unit :=
  fun '(w, tr) => (Ok tt, (w, (tr ++ [ConsoleLog line])%list)).

(** The loop of lines 28-33; [remaining] counts the pages from [page] to
    [totalPages]. *)
Fixpoint fetchPages (agentDid : option string) (remaining : nat) (page : Z)
         (reviews : list Attestation) : M W Event (list Attestation) :=
  match remaining with
  | O => ret reviews
  | S k =>
    pagedRes <- get (url agentDid page) ;;
    fetchPages agentDid k (page + 1) (reviews ++ data pagedRes)%list
  end.

Definition getReviewsForAgent (agentDid : option string) : M W Event (list Attestation) :=
  page1Res <- get (url agentDid 1) ;;
  let reviews := ([] ++ data page1Res)%list in
  let totalPages := totalPages page1Res in
  if 1 <? totalPages
  then fetchPages agentDid (Z.to_nat (totalPages - 1)) 2 reviews
  else ret reviews.

(** The callback of [reviews.reduce] (lines 50-57). *)
Definition addStars (acc : number) (attestation : Attestation) : Result number :=
  match JSON_parse (decodedDataJson attestation) with
  | Throw e => Throw e
  | Ok decoded =>
    match findField "stars" decoded with
    | None => Throw undefined_value
    | Some starsField => Ok (number_add acc (Number (f_value starsField)))
    end
  end.

Definition totalStars (reviews : list Attestation) : Result number :=
  reduce addStars reviews (number_of_Z 0).

(** Line 58. *)
Definition averageStars (totalStars : number) (reviewCount : nat) : number :=
  if Nat.ltb 0 reviewCount
  then number_div totalStars (number_of_nat reviewCount)
  else number_of_Z 0.

Definition renderAverage (average : number) (reviewCount : nat) : string :=
  "⭐ " ++ Number_toFixed Number_toString 2 average
  ++ " (" ++ nat_toString reviewCount ++ " reviews)".

(** The body of the loop of lines 62-75. *)
Definition printReview (review : Attestation) : M W Event unit :=
  decoded <- lift (JSON_parse (decodedDataJson review)) ;;
  match findField "stars" decoded with
  | None => throw undefined_value
  | Some starsField =>
    log ("  📋 Review by " ++ fromDid review ++ ". ⭐ " ++ String_of (f_value starsField)) ;;;
    match findField "comment" decoded with
    | None => throw undefined_value
    | Some commentField => log ("  " ++ String_of (f_value commentField))
    end
  end.

Fixpoint printReviews (reviews : list Attestation) : M W Event unit :=
  match reviews with
  | [] => ret tt
  | review :: rest => printReview review ;;; printReviews rest
  end.

Definition main (agentDid : option string) : M W Event unit :=
  reviews <- getReviewsForAgent agentDid ;;
  let reviewCount := List.length reviews in
  totalStars <- lift (totalStars reviews) ;;
  let averageStars := averageStars totalStars reviewCount in
  log ("🆔 Agent DID: " ++ template agentDid) ;;;
  log (renderAverage averageStars reviewCount) ;;;
  printReviews reviews.

End WithExternals.

End IdentityReviews.

(* ================================================================== *)
(** ** A canned attestation index, for running the listing script *)

Module MockIndex.
Import IdentityReviews.

(** The index is stateless: the world is [unit]. *)
Definition World : Type := unit.

Definition API_URL : option string := Some "https://index.example/api/v1".
Definition SCHEMA : option string := Some "0xc5708478".
Definition agent : option string := Some "did:iden3:billions:test:agent".

Definition item (k : nat) : Attestation :=
  {| fromDid := "did:iden3:billions:test:reviewer" ++ nat_toString k;
     decodedDataJson := "stars=5" |}.

Definition items (first count : nat) : list Attestation := map item (seq first count).

Definition page1 : Page := {| data := items 0 20; totalPages := 3 |}.
Definition page2 : Page := {| data := items 20 20; totalPages := 3 |}.
Definition page3 : Page := {| data := items 40 7; totalPages := 3 |}.

Definition url_of (page : Z) : string :=
  url API_URL SCHEMA agent page.

(** Three pages of 20, 20 and 7 items; any other request fails. *)
Definition axios_get (u : string) (w : World) : Result Page * World :=
  if String.eqb u (url_of 1) then (Ok page1, w)
  else if String.eqb u (url_of 2) then (Ok page2, w)
  else if String.eqb u (url_of 3) then (Ok page3, w)
  else (Throw (mkError "AxiosError" "Request failed with status code 404"), w).

Definition stars_of (n : Z) : list Field :=
  [ {| f_name := "comment"; f_value := JStr "fine" |};
    {| f_name := "stars"; f_value := JNum (number_of_Z n) |} ].

(** A parser for the payloads of the canned reviews. *)
Definition JSON_parse (s : string) : Result (list Field) :=
  if String.eqb s "stars=5" then Ok (stars_of 5)
  else if String.eqb s "stars=4" then Ok (stars_of 4)
  else if String.eqb s "comment only"
       then Ok [ {| f_name := "comment"; f_value := JStr "no rating" |} ]
  else Throw (mkError "SyntaxError" "Unexpected token in JSON").

Definition StringToNumber (s : string) : number := S754_nan.
Definition Number_toString (x : number) : string := "NaN".

Definition review (payload : string) : Attestation :=
  {| fromDid := "did:iden3:billions:test:reviewer"; decodedDataJson := payload |}.

Definition reviews_545 : list Attestation :=
  [review "stars=5"; review "stars=4"; review "stars=5"].

Definition reviews_unrated : list Attestation :=
  [review "stars=5"; review "comment only"; review "stars=4"].

(** An index with a single page holding [reviews_545]. *)
Definition axios_get_545 (u : string) (w : World) : Result Page * World :=
  (Ok {| data := reviews_545; totalPages := 1 |}, w).

(** An index with a single page holding [reviews_unrated]. *)
Definition axios_get_unrated (u : string) (w : World) : Result Page * World :=
  (Ok {| data := reviews_unrated; totalPages := 1 |}, w).

End MockIndex.

(* ================================================================== *)
(** ** The shape of a schema identifier *)

Module SchemaShape.

(** The shape the specification names for a schema identifier: the prefix
    [0x] followed by 64 hexadecimal digits. *)
Definition is_hex_digit (ch : ascii) : bool :=
  let n := nat_of_ascii ch in
  (Nat.leb 48 n && Nat.leb n 57) || (Nat.leb 65 n && Nat.leb n 70)
  || (Nat.leb 97 n && Nat.leb n 102).

Fixpoint all_hex (s : string) : bool :=
  match s with
  | EmptyString => true
  | String ch s' => is_hex_digit ch && all_hex s'
  end.

Definition is_bytes32_hex (s : string) : bool :=
  startsWith s "0x" && Nat.eqb (String.length s) 66
  && all_hex (String.substring 2 64 s).

End SchemaShape.

(* ================================================================== *)
(** ** A canned chain and identity SDK, for running the scripts *)

Module MockChain.
Import WalletSetup Utils Attest.

(** The world: the ID the AuthVerifier binds to the signer's address, the
    number of the identity the wallet holds (0 before it creates one), and
    the number of attestations recorded. *)
Record World : Type := mkWorld {
  bound : Z;
  identities : nat;
  attestations : nat
}.

Definition unbound : World := {| bound := 0; identities := 0; attestations := 0 |}.

Definition did_of (n : nat) : string := "did:" ++ nat_toString n.

(** The ID of a DID is the number after its ["did:"] prefix. *)
Definition idFromDID (d : DID) : Result Z :=
  match NilEmpty.uint_of_string (String.substring 4 (String.length d - 4) d) with
  | Some u => Ok (Z.of_uint u)
  | None => Throw (Error "invalid DID")
  end.

Definition parseFromId (z : Z) : Result string := Ok ("did:" ++ BigInt_toString z).

Definition sampleProof : ProofData :=
  {| pi_a := ["11"; "12"; "1"];
     pi_b := [["21"; "22"]; ["23"; "24"]; ["1"; "0"]];
     pi_c := ["31"; "32"; "1"];
     protocol := "groth16" |}.

Definition authTx : Tx := {| hash := "0xa17" |}.
Definition attestationTx : Tx := {| hash := "0xa77" |}.

Definition foreignLog : Log := {| topics := ["0xddf2"]; data := "0x" |}.
Definition otherLog : Log := {| topics := ["0x0001"]; data := "0x" |}.
Definition recordedLog : Log := {| topics := ["0xa77e"; "0x2a"]; data := "0x" |}.

(** What the contract library answers to an argument that is not 32 bytes
    of hexadecimal. *)
Definition invalid_bytes32 : JsError := TypeError "invalid BytesLike value".

Definition signer : Wallet := {| privateKey := "0x5ec"; address := "0x51c9e2" |}.

(** How the verifier treats an accepted proof for [proved] when the address
    is bound to [old]. *)
Definition Policy : Type := Z -> Z -> Z.
Definition rebinding : Policy := fun old proved => proved.
Definition first_binding_wins : Policy := fun old proved => if old =? 0 then proved else old.
Definition inert : Policy := fun old proved => old.

Section Mock.
(** Whether the wallet restores one and the same identity on every run, or
    creates a fresh one each time (in-memory storage). *)
Variable persistent : bool.
Variable policy : Policy.
(** The logs of the receipt of an attestation transaction. *)
Variable attestationLogs : list Log.

Definition externals : Externals World :=
  {| identityWallet_createIdentity := fun _ w =>
       let n := if persistent then 1%nat else S (identities w) in
       (Ok (did_of n),
        {| bound := bound w; identities := n; attestations := attestations w |});
     getSchema := fun _ schemaId w =>
       if SchemaShape.is_bytes32_hex schemaId
       then (Ok {| sr_id := schemaId; sr_schema := "uint8 stars,string comment";
                   sr_resolver := ZeroAddress; sr_revocable := true |}, w)
       else (Throw invalid_bytes32, w);
     getDefaultIdType := fun _ w => (Ok "0x0113", w);
     getIdByAddress := fun _ _ w => (Ok (bound w), w);
     proofService_generateAuthProof := fun _ d _ w =>
       (Ok {| proof := sampleProof; pub_signals := ["1"; "2"; "3"] |}, w);
     authMethodExists := fun _ _ w => (Ok true, w);
     submitResponse := fun _ _ w =>
       (Ok authTx,
        {| bound := policy (bound w) (Z.of_nat (identities w));
           identities := identities w; attestations := attestations w |});
     wait := fun tx w =>
       (Ok (Some {| logs := if String.eqb (hash tx) (hash attestationTx)
                            then attestationLogs else [];
                    gasUsed := 21000 |}), w);
     recordAttestation := fun _ _ w =>
       (Ok attestationTx,
        {| bound := bound w; identities := identities w;
           attestations := S (attestations w) |});
     getAttestation := fun _ attestationId w =>
       (Ok {| sa_id := template attestationId; sa_schemaId := ZeroHash;
              sa_attester := {| did := ""; iden3Id := IdBig (bound w);
                                ethereumAddress := address signer |};
              sa_data := "0xda7a" |}, w);
     isAttestationValid := fun _ _ w => (Ok true, w);
     Wallet_new := fun key _ => Ok {| privateKey := key; address := address signer |};
     DID_idFromDID := idFromDID;
     DID_parseFromId := parseFromId;
     calcChallengeAuthV2 := fun _ => Ok 42;
     AbiCoder_encode := fun _ _ => Ok "0xda7a";
     AbiCoder_decode := fun _ _ => Ok ["5"; "great"];
     parseLog := fun _ log =>
       if String.eqb (hd "" (topics log)) "0xa77e"
       then Ok (Some {| name := "AttestationRecorded"; args := skipn 1 (topics log) |})
       else if String.eqb (hd "" (topics log)) "0x0001"
       then Ok (Some {| name := "SchemaRegistered"; args := [] |})
       else if String.eqb (hd "" (topics log)) "0xddf2"
       then Throw (Error "no matching event")
       else Ok None |}.

End Mock.

Definition schema : string :=
  "0xc5708478573c079ed58716909734f526d843151672414e7474fadc11e4cb041f".

(** 66 characters behind the prefix test, none of them a hexadecimal digit. *)
Definition not_hex : string :=
  "0xzzzzzzzzzzzzzzzzzzzzzzzzzzzzzzzzzzzzzzzzzzzzzzzzzzzzzzzzzzzzzzzz".

Definition opts : Opts :=
  {| rpcUrl := "https://rpc.example";
     rhsUrl := "https://rhs.example";
     circuitsPath := "./circuits";
     stateContractAddress := "0x57a7e";
     authVerifierContractAddress := "0xa07b";
     attestationRegistryContractAddress := "0xa77e57";
     schemaRegistryContractAddress := "0x5c6e3a";
     chainId := "6913" |}.

Definition config (schemaId : string) : Config :=
  {| env_schemaId := Some schemaId;
     env_privateKey := Some (privateKey signer);
     env_rpcUrl := Some (rpcUrl opts);
     env_stateContractAddress := Some (stateContractAddress opts);
     env_authVerifierContractAddress := Some (authVerifierContractAddress opts);
     env_attestationRegistryContractAddress :=
       Some (attestationRegistryContractAddress opts);
     env_schemaRegistryContractAddress := Some (schemaRegistryContractAddress opts);
     env_chainId := Some (chainId opts);
     env_rhsUrl := Some (rhsUrl opts);
     env_circuitsPath := Some (circuitsPath opts) |}.

Definition reviewValues : Values :=
  {| stars := Some "5"; comment := Some "great";
     recipientDid := Some "did:iden3:billions:test:agent";
     recipientId := None; recipientAddress := None |}.

End MockChain.

(* ================================================================== *)
(** ** What a trace shows *)

Module Observe.
Import Utils.

(** The DIDs of the identities created, in order. *)
Definition created (tr : list Event) : list DID :=
  flat_map (fun ev => match ev with CreateIdentity _ (Ok d) => [d] | _ => [] end) tr.

(** The IDs read from the AuthVerifier, in order. *)
Definition bindingsRead (tr : list Event) : list Z :=
  flat_map (fun ev => match ev with GetIdByAddress _ (Ok z) => [z] | _ => [] end) tr.

(** The ID the AuthVerifier bound to the signer when the run first asked. *)
Definition initialBinding (tr : list Event) : option Z := hd_error (bindingsRead tr).

(** The locally derived candidate: the ID of the identity the run created. *)
Definition candidateOf {W} (E : Externals W) (tr : list Event) : option Z :=
  match created tr with
  | d :: _ => match DID_idFromDID E d with Ok z => Some z | Throw _ => None end
  | [] => None
  end.

(** The ID read back after an authentication response was submitted and its
    inclusion awaited. *)
Fixpoint requeried (tr : list Event) : option Z :=
  match tr with
  | SubmitResponse _ (Ok _) :: TxWait _ (Ok _) :: GetIdByAddress _ (Ok z) :: _ => Some z
  | _ :: tr' => requeried tr'
  | [] => None
  end.

(** The receipt obtained for a recorded attestation. *)
Fixpoint attestationReceipt (tr : list Event) : option (option Receipt) :=
  match tr with
  | RecordAttestation _ (Ok _) :: TxWait _ (Ok receipt) :: _ => Some receipt
  | _ :: tr' => attestationReceipt tr'
  | [] => None
  end.

Definition logs_of (receipt : option Receipt) : list Log :=
  match receipt with Some r => logs r | None => [] end.

End Observe.

Module ObserveIndex.
Import IdentityReviews.

(** The page numbers [first, first + 1, ...], [count] of them. *)
Definition pageNumbers (first : Z) (count : nat) : list Z :=
  map (fun k => first + Z.of_nat k) (seq 0 count).

(** The trace of successful requests for [urls] answered by [pages]. *)
Definition fetched (urls : list string) (pages : list Page) : list Event :=
  map (fun up => HttpGet (fst up) (Ok (snd up))) (combine urls pages).

(** From world [w], requesting [urls] one after the other yields [pages]
    and leaves the world [w']. *)
Inductive serves {W} (axios_get : string -> W -> Result Page * W)
  : list string -> list Page -> W -> W -> Prop :=
| serves_nil : forall w, serves axios_get [] [] w w
| serves_cons : forall u us p ps w w1 w2,
    axios_get u w = (Ok p, w1) ->
    serves axios_get us ps w1 w2 ->
    serves axios_get (u :: us) (p :: ps) w w2.

(** The number of pages the listing requests given the first envelope. *)
Definition pagesRequested (totalPages : Z) : nat :=
  if 1 <? totalPages then Z.to_nat totalPages else 1%nat.

(** The value of the field named [stars] of a record, when it parses and
    has one. *)
Definition starsOf (JSON_parse : string -> Result (list Field))
           (attestation : Attestation) : option JVal :=
  match JSON_parse (decodedDataJson attestation) with
  | Ok decoded => option_map f_value (findField "stars" decoded)
  | Throw _ => None
  end.

(** Every record of [reviews] has a rating, and [values] are the ratings. *)
Definition rated (JSON_parse : string -> Result (list Field))
           (reviews : list Attestation) (values : list JVal) : Prop :=
  map (starsOf JSON_parse) reviews = map Some values.

(** The sum of the ratings, accumulated in record order from [0]. *)
Definition sumStars (StringToNumber : string -> number) (values : list JVal) : number :=
  fold_left number_add (map (Number StringToNumber) values) (number_of_Z 0).

End ObserveIndex.

(* ================================================================== *)
(** ** scripts/revokeAttestation.ts *)

Module Revoke.

(** The four environment variables the script reads. *)
Record Config : Type := mkConfig {
  rv_privateKey : option string;
  rv_rpcUrl : option string;
  rv_attestationRegistryContractAddress : option string;
  rv_chainId : option string
}.

(** The calls that leave the process. *)
Inductive Event : Type :=
| RevokeAttestation (registry : Contract) (attestationId : string) (r : Result Tx)
| Wait (tx : Tx) (r : Result (option Receipt)).

Definition id_required : JsError :=
  Error "'id' for the attestation to revoke is required".

Definition checkRequiredParams (cfg : Config) : Result unit :=
  if falsy (rv_privateKey cfg) then Throw (Attest.not_defined "PRIVATE_KEY")
  else if falsy (rv_rpcUrl cfg)
       then Throw (Attest.not_defined "BILLIONS_TESTNET_RPC_URL")
  else if falsy (rv_attestationRegistryContractAddress cfg)
       then Throw (Attest.not_defined "ATTESTATION_REGISTRY_CONTRACT_ADDRESS")
  else if falsy (rv_chainId cfg) then Throw (Attest.not_defined "CHAIN_ID")
  else Ok tt.

Section WithExternals.
Context {W : Type}.
(** [new Wallet(key, provider)], [attestationRegistry.revokeAttestation]
    and [tx.wait] are external. *)
Variable Wallet_new : string -> string -> Result Wallet.
Variable revokeAttestation : Contract -> string -> W -> Result Tx * W.
Variable wait : Tx -> W -> Result (option Receipt) * W.

(** [id] is the value of the [--id] option, when given. *)
Definition main (cfg : Config) (id : option string) : M W Event unit :=
  _ <- lift (checkRequiredParams cfg) ;;
  wallet <- lift (Wallet_new (template (rv_privateKey cfg)) (template (rv_rpcUrl cfg))) ;;
  if falsy id then throw id_required
  else
    let attestationRegistry :=
        mkContract (template (rv_attestationRegistryContractAddress cfg)) wallet in
    tx <- perform (revokeAttestation attestationRegistry (template id))
                  (RevokeAttestation attestationRegistry (template id)) ;;
    _ <- perform (wait tx) (Wait tx) ;;
    ret tt.

End WithExternals.

End Revoke.

(* ================================================================== *)
(** ** A canned registry for the revocation script *)

Module MockRevoke.
Import Revoke.

(** The world: the identifiers revoked so far. *)
Definition World : Type := list string.

Definition Wallet_new (key url : string) : Result Wallet :=
  Ok {| privateKey := key; address := "0x51c9e2" |}.

Definition revokeTx : Tx := {| hash := "0x4e70" |}.

Definition revokeAttestation (registry : Contract) (attestationId : string)
           (w : World) : Result Tx * World :=
  (Ok revokeTx, attestationId :: w).

Definition wait (tx : Tx) (w : World) : Result (option Receipt) * World :=
  (Ok (Some {| logs := []; gasUsed := 30000 |}), w).

Definition config : Config :=
  {| rv_privateKey := Some "0x5ec";
     rv_rpcUrl := Some "https://rpc.example";
     rv_attestationRegistryContractAddress := Some "0xa77e57";
     rv_chainId := Some "6913" |}.

End MockRevoke.

(* ================================================================== *)
(** ** More canned environments *)

Module MockMore.
Import Utils Attest MockChain IdentityReviews.

(** An environment that differs from [E] in what the registry answers to
    [isAttestationValid]. *)
Definition with_validity {W} (valid : bool) (E : Externals W) : Externals W :=
  {| identityWallet_createIdentity := identityWallet_createIdentity E;
     getSchema := getSchema E;
     getDefaultIdType := getDefaultIdType E;
     getIdByAddress := getIdByAddress E;
     proofService_generateAuthProof := proofService_generateAuthProof E;
     authMethodExists := authMethodExists E;
     submitResponse := submitResponse E;
     wait := wait E;
     recordAttestation := recordAttestation E;
     getAttestation := getAttestation E;
     isAttestationValid := fun _ _ w => (Ok valid, w);
     Wallet_new := Wallet_new E;
     DID_idFromDID := DID_idFromDID E;
     DID_parseFromId := DID_parseFromId E;
     calcChallengeAuthV2 := calcChallengeAuthV2 E;
     AbiCoder_encode := AbiCoder_encode E;
     AbiCoder_decode := AbiCoder_decode E;
     parseLog := parseLog E |}.

(** An environment that differs from [E] in whether the verifier knows the
    method asked for. *)
Definition with_authMethod {W} (registered : bool) (E : Externals W) : Externals W :=
  {| identityWallet_createIdentity := identityWallet_createIdentity E;
     getSchema := getSchema E;
     getDefaultIdType := getDefaultIdType E;
     getIdByAddress := getIdByAddress E;
     proofService_generateAuthProof := proofService_generateAuthProof E;
     authMethodExists := fun _ _ w => (Ok registered, w);
     submitResponse := submitResponse E;
     wait := wait E;
     recordAttestation := recordAttestation E;
     getAttestation := getAttestation E;
     isAttestationValid := isAttestationValid E;
     Wallet_new := Wallet_new E;
     DID_idFromDID := DID_idFromDID E;
     DID_parseFromId := DID_parseFromId E;
     calcChallengeAuthV2 := calcChallengeAuthV2 E;
     AbiCoder_encode := AbiCoder_encode E;
     AbiCoder_decode := AbiCoder_decode E;
     parseLog := parseLog E |}.

(** An environment that differs from [E] in that the verifier rejects every
    response with [e]. *)
Definition with_rejection {W} (e : JsError) (E : Externals W) : Externals W :=
  {| identityWallet_createIdentity := identityWallet_createIdentity E;
     getSchema := getSchema E;
     getDefaultIdType := getDefaultIdType E;
     getIdByAddress := getIdByAddress E;
     proofService_generateAuthProof := proofService_generateAuthProof E;
     authMethodExists := authMethodExists E;
     submitResponse := fun _ _ w => (Throw e, w);
     wait := wait E;
     recordAttestation := recordAttestation E;
     getAttestation := getAttestation E;
     isAttestationValid := isAttestationValid E;
     Wallet_new := Wallet_new E;
     DID_idFromDID := DID_idFromDID E;
     DID_parseFromId := DID_parseFromId E;
     calcChallengeAuthV2 := calcChallengeAuthV2 E;
     AbiCoder_encode := AbiCoder_encode E;
     AbiCoder_decode := AbiCoder_decode E;
     parseLog := parseLog E |}.

(** An environment that differs from [E] in that no schema is registered:
    the registry answers the empty record. *)
Definition without_schema {W} (E : Externals W) : Externals W :=
  {| identityWallet_createIdentity := identityWallet_createIdentity E;
     getSchema := fun _ _ w =>
       (Ok {| sr_id := ZeroHash; sr_schema := ""; sr_resolver := ZeroAddress;
              sr_revocable := false |}, w);
     getDefaultIdType := getDefaultIdType E;
     getIdByAddress := getIdByAddress E;
     proofService_generateAuthProof := proofService_generateAuthProof E;
     authMethodExists := authMethodExists E;
     submitResponse := submitResponse E;
     wait := wait E;
     recordAttestation := recordAttestation E;
     getAttestation := getAttestation E;
     isAttestationValid := isAttestationValid E;
     Wallet_new := Wallet_new E;
     DID_idFromDID := DID_idFromDID E;
     DID_parseFromId := DID_parseFromId E;
     calcChallengeAuthV2 := calcChallengeAuthV2 E;
     AbiCoder_encode := AbiCoder_encode E;
     AbiCoder_decode := AbiCoder_decode E;
     parseLog := parseLog E |}.

Definition execution_reverted : JsError := Error "execution reverted".

(** Settings with the chain ID left out. *)
Definition config_without_chainId : Config :=
  {| env_schemaId := Some schema;
     env_privateKey := Some (privateKey signer);
     env_rpcUrl := Some (rpcUrl opts);
     env_stateContractAddress := Some (stateContractAddress opts);
     env_authVerifierContractAddress := Some (authVerifierContractAddress opts);
     env_attestationRegistryContractAddress :=
       Some (attestationRegistryContractAddress opts);
     env_schemaRegistryContractAddress := Some (schemaRegistryContractAddress opts);
     env_chainId := None;
     env_rhsUrl := Some (rhsUrl opts);
     env_circuitsPath := Some (circuitsPath opts) |}.

(** A command line that names no recipient: a blank DID and the ID ["0"]. *)
Definition noRecipient : Values :=
  {| stars := Some "5"; comment := Some "great";
     recipientDid := Some "  "; recipientId := Some "0"; recipientAddress := None |}.

(** Reviews for the listing: the second one carries no comment. *)
Definition JSON_parse (s : string) : Result (list Field) :=
  if String.eqb s "5 fine"
  then Ok [ {| f_name := "stars"; f_value := JNum (number_of_Z 5) |};
            {| f_name := "comment"; f_value := JStr "fine" |} ]
  else if String.eqb s "4 good"
  then Ok [ {| f_name := "comment"; f_value := JStr "good" |};
            {| f_name := "stars"; f_value := JNum (number_of_Z 4) |} ]
  else if String.eqb s "3"
  then Ok [ {| f_name := "stars"; f_value := JNum (number_of_Z 3) |} ]
  else Throw (mkError "SyntaxError" "Unexpected token in JSON").

(** Integers print as their digits; nothing else is printed here. *)
Definition Number_toString (x : number) : string :=
  if SFeqb x (number_of_Z 5) then "5"
  else if SFeqb x (number_of_Z 4) then "4"
  else if SFeqb x (number_of_Z 3) then "3"
  else "NaN".

Definition by_ (who payload : string) : Attestation :=
  {| fromDid := who; decodedDataJson := payload |}.

Definition complete_reviews : list Attestation :=
  [by_ "did:a" "5 fine"; by_ "did:b" "4 good"].

Definition uncommented_reviews : list Attestation :=
  [by_ "did:a" "5 fine"; by_ "did:b" "3"; by_ "did:c" "4 good"].

Definition single_page (reviews : list Attestation) (u : string) (w : unit)
  : Result Page * unit :=
  (Ok {| data := reviews; totalPages := 1 |}, w).

Definition gateway_timeout : JsError :=
  mkError "AxiosError" "Request failed with status code 504".

(** The index of [MockIndex], with the third page failing. *)
Definition axios_get_failing (u : string) (w : unit) : Result Page * unit :=
  if String.eqb u (MockIndex.url_of 3) then (Throw gateway_timeout, w)
  else MockIndex.axios_get u w.

End MockMore.

(* ================================================================== *)
(** ** More of what a trace shows *)

Module ObserveMore.
Import Utils Attest IdentityReviews.

(** The kind of a call, without its arguments and outcome. *)
Inductive Kind : Type :=
| KCreateIdentity | KGetSchema | KGetDefaultIdType | KGetIdByAddress
| KGenerateAuthProof | KAuthMethodExists | KSubmitResponse | KTxWait
| KRecordAttestation | KGetAttestation | KIsAttestationValid.

Definition kind (ev : Chain.Event) : Kind :=
  match ev with
  | CreateIdentity _ _ => KCreateIdentity
  | GetSchema _ _ => KGetSchema
  | GetDefaultIdType _ => KGetDefaultIdType
  | GetIdByAddress _ _ => KGetIdByAddress
  | GenerateAuthProof _ _ _ _ => KGenerateAuthProof
  | AuthMethodExists _ _ => KAuthMethodExists
  | SubmitResponse _ _ => KSubmitResponse
  | TxWait _ _ => KTxWait
  | RecordAttestation _ _ => KRecordAttestation
  | GetAttestation _ _ => KGetAttestation
  | IsAttestationValid _ _ => KIsAttestationValid
  end.

(** The three phases of a script, as sequences of calls. *)
Definition lookupCalls : list Kind :=
  [KCreateIdentity; KGetSchema; KGetDefaultIdType; KGetIdByAddress].

Definition authenticationCalls : list Kind :=
  [KGenerateAuthProof; KAuthMethodExists; KSubmitResponse; KTxWait; KGetIdByAddress].

Definition attestationCalls : list Kind :=
  [KRecordAttestation; KTxWait; KGetAttestation; KIsAttestationValid].

Definition is_prefix {A} (l full : list A) : Prop := exists rest, full = (l ++ rest)%list.

(** The attestation requests submitted, in order. *)
Definition recorded (tr : list Chain.Event) : list AttestationRequest :=
  flat_map (fun ev => match ev with RecordAttestation req _ => [req] | _ => [] end) tr.

(** The last ID read from the AuthVerifier, 0 when none was read. *)
Definition lastBinding (tr : list Chain.Event) : Z := last (Observe.bindingsRead tr) 0.


(** The first required setting that is unset or empty. *)
Definition firstMissing (settings : list (string * option string)) : option string :=
  option_map fst (find (fun s => falsy (snd s)) settings).


Definition revokeRequired (cfg : Revoke.Config) : list (string * option string) :=
  [ ("PRIVATE_KEY", Revoke.rv_privateKey cfg);
    ("BILLIONS_TESTNET_RPC_URL", Revoke.rv_rpcUrl cfg);
    ("ATTESTATION_REGISTRY_CONTRACT_ADDRESS",
     Revoke.rv_attestationRegistryContractAddress cfg);
    ("CHAIN_ID", Revoke.rv_chainId cfg) ].

(** The [stars] and [comment] fields of a record that parses and has both. *)
Definition fieldsOf (JSON_parse : string -> Result (list Field))
           (attestation : Attestation) : option (Field * Field) :=
  match JSON_parse (decodedDataJson attestation) with
  | Ok decoded =>
    match findField "stars" decoded, findField "comment" decoded with
    | Some s, Some c => Some (s, c)
    | _, _ => None
    end
  | Throw _ => None
  end.

(** The first line the listing prints for a review. *)
Definition reviewLine (Number_toString : number -> string)
           (attestation : Attestation) (starsField : Field) : string :=
  "  📋 Review by " ++ fromDid attestation ++ ". ⭐ "
  ++ String_of Number_toString (f_value starsField).

(** The two lines the listing prints for a review. *)
Definition reviewLines (Number_toString : number -> string)
           (entry : Attestation * (Field * Field)) : list string :=
  [ reviewLine Number_toString (fst entry) (fst (snd entry));
    "  " ++ String_of Number_toString (f_value (snd (snd entry))) ].

(** The two lines the listing prints before the reviews. *)
Definition headerLines (StringToNumber : string -> number)
           (Number_toString : number -> string) (agentDid : option string)
           (ratings : list JVal) : list string :=
  [ "🆔 Agent DID: " ++ template agentDid;
    renderAverage Number_toString
      (averageStars (ObserveIndex.sumStars StringToNumber ratings) (List.length ratings))
      (List.length ratings) ].

Definition logged (lines : list string) : list IdentityReviews.Event :=
  map ConsoleLog lines.

End ObserveMore.

(* ================================================================== *)
(** * Properties *)

(** ** Proof-bundle layout *)

Section WalletSetupFacts.
Import WalletSetup.

(** C10. For every proof object whose [pi_b] has its first two rows,
    [prepareZkpProof] returns [a] and [c] as the first two elements of
    [pi_a] and [pi_c], and [b] as the first two rows of [pi_b] with the
    two coordinates of each swapped; [packZkpProof] hands the coder the
    types [uint256[]], [uint256[2]], [uint256[2][2]], [uint256[2]] and
    the values (public signals, a, b, c). *)
Theorem prepare_and_pack_layout :
  forall (p : ProofData) (r0 r1 : list string),
    nth_error (pi_b p) 0 = Some r0 ->
    nth_error (pi_b p) 1 = Some r1 ->
    prepareZkpProof p
    = Ok {| a := firstn 2 (pi_a p);
            b := [ [nth_error r0 1; nth_error r0 0];
                   [nth_error r1 1; nth_error r1 0] ];
            c := firstn 2 (pi_c p) |}
    /\ forall (encode : list string -> list AbiValue -> Result string)
              (inputs : list string) (q : PreparedProof),
         prepareZkpProof p = Ok q ->
         packZkpProof encode inputs (a q) (b q) (c q)
         = encode ["uint256[] inputs"; "uint256[2]"; "uint256[2][2]"; "uint256[2]"]
                  [ VStrs inputs;
                    VStrs (firstn 2 (pi_a p));
                    VArr [ VArr [VOpt (nth_error r0 1); VOpt (nth_error r0 0)];
                           VArr [VOpt (nth_error r1 1); VOpt (nth_error r1 0)] ];
                    VStrs (firstn 2 (pi_c p)) ].
Proof.
  intros p r0 r1 H0 H1.
  assert (Hprep : prepareZkpProof p
                  = Ok {| a := firstn 2 (pi_a p);
                          b := [ [nth_error r0 1; nth_error r0 0];
                                 [nth_error r1 1; nth_error r1 0] ];
                          c := firstn 2 (pi_c p) |}).
  { unfold prepareZkpProof, row_at. rewrite H0, H1. reflexivity. }
  split; [exact Hprep|].
  intros encode inputs q Hq.
  rewrite Hprep in Hq. injection Hq as <-.
  reflexivity.
Qed.

(** On a Groth16 proof as snarkjs emits it (three projective coordinates
    per point), the third coordinates are dropped and the pairs of [pi_b]
    are swapped. *)
Lemma prepare_and_pack_layout_groth16 :
  prepareZkpProof MockChain.sampleProof
  = Ok {| a := ["11"; "12"];
          b := [ [Some "22"; Some "21"]; [Some "24"; Some "23"] ];
          c := ["31"; "32"] |}
  /\ forall encode inputs q,
       prepareZkpProof MockChain.sampleProof = Ok q ->
       packZkpProof encode inputs (a q) (b q) (c q)
       = encode ["uint256[] inputs"; "uint256[2]"; "uint256[2][2]"; "uint256[2]"]
                [ VStrs inputs;
                  VStrs ["11"; "12"];
                  VArr [ VArr [VStr "22"; VStr "21"]; VArr [VStr "24"; VStr "23"] ];
                  VStrs ["31"; "32"] ].
Proof.
  exact (prepare_and_pack_layout MockChain.sampleProof ["21"; "22"] ["23"; "24"]
           eq_refl eq_refl).
Defined.

End WalletSetupFacts.

(** ** The listing script *)

Section IdentityReviewsFacts.
Import IdentityReviews ObserveIndex.

Context {W : Type}.
Variable axios_get : string -> W -> Result Page * W.
Variable JSON_parse : string -> Result (list Field).
Variable StringToNumber : string -> number.
Variable Number_toString : number -> string.
Variable API_URL SCHEMA : option string.

Lemma pageNumbers_succ (first : Z) (count : nat) :
  pageNumbers first (S count) = first :: pageNumbers (first + 1) count.
Proof.
  unfold pageNumbers. cbn [seq map]. f_equal.
  - lia.
  - rewrite <- seq_shift, map_map. apply map_ext. intros k. lia.
Qed.

Lemma serves_length (urls : list string) (pages : list Page) (w w' : W) :
  serves axios_get urls pages w w' -> List.length urls = List.length pages.
Proof.
  induction 1; cbn; congruence.
Qed.

Lemma pageNumbers_length (first : Z) (count : nat) :
  List.length (pageNumbers first count) = count.
Proof.
  unfold pageNumbers. now rewrite length_map, length_seq.
Qed.

(** The loop requests the remaining pages in order and appends their items. *)
Lemma fetchPages_serves (agentDid : option string) (ps : list Page) :
  forall (page : Z) (reviews : list Attestation) (w w' : W) (tr : list Event),
    serves axios_get
           (map (url API_URL SCHEMA agentDid) (pageNumbers page (List.length ps)))
           ps w w' ->
    fetchPages axios_get API_URL SCHEMA agentDid (List.length ps) page reviews (w, tr)
    = (Ok (reviews ++ List.concat (map data ps))%list,
       (w', (tr ++ fetched (map (url API_URL SCHEMA agentDid)
                                (pageNumbers page (List.length ps))) ps)%list)).
Proof.
  induction ps as [|p ps IH]; intros page reviews w w' tr Hs.
  - inversion Hs; subst. cbn. now rewrite !app_nil_r.
  - cbn [List.length] in *. rewrite pageNumbers_succ in *. cbn [map] in *.
    inversion Hs as [|u us p' ps' w0 w1 w2 Hget Hrest]; subst.
    cbn [fetchPages]. unfold bind, get, perform. rewrite Hget.
    rewrite (IH (page + 1) (reviews ++ data p)%list w1 w' _ Hrest).
    cbn [map List.concat fetched combine fst snd].
    now rewrite <- !app_assoc.
Qed.

(** C5. When the index answers the requests for pages [1 .. N], where [N]
    is the [totalPages] of the first envelope (one page when that is not
    above 1), [getReviewsForAgent] requests exactly those pages, in order
    and with page size 20, and returns the concatenation of their items in
    page order; the number of items is the sum of the page lengths. *)
Theorem getReviewsForAgent_drains_pages :
  forall (agentDid : option string) (p1 : Page) (ps : list Page) (w w' : W),
    let urls := map (url API_URL SCHEMA agentDid)
                    (pageNumbers 1 (pagesRequested (totalPages p1))) in
    serves axios_get urls (p1 :: ps) w w' ->
    run (getReviewsForAgent axios_get API_URL SCHEMA agentDid) w
    = (Ok (List.concat (map data (p1 :: ps))), (w', fetched urls (p1 :: ps)))
    /\ List.length (List.concat (map data (p1 :: ps)))
       = list_sum (map (fun p => List.length (data p)) (p1 :: ps)).
Proof.
  intros agentDid p1 ps w w' urls Hs.
  split.
  2:{ clear. induction (p1 :: ps) as [|p l IH]; [reflexivity|].
      cbn [map List.concat list_sum]. now rewrite length_app, IH. }
  subst urls.
  pose proof (serves_length _ _ _ _ Hs) as Hlen.
  rewrite length_map, pageNumbers_length in Hlen. cbn [List.length] in Hlen.
  rewrite Hlen in Hs. rewrite Hlen.
  rewrite pageNumbers_succ in *. cbn [map] in *.
  inversion Hs as [|u us p' ps' w0 w1 w2 Hget Hrest]; subst.
  unfold run, getReviewsForAgent, bind, get, perform. rewrite Hget.
  cbn [app].
  unfold pagesRequested in Hlen.
  destruct (1 <? totalPages p1) eqn:Htp.
  - assert (Hn : Z.to_nat (totalPages p1 - 1) = List.length ps).
    { apply Z.ltb_lt in Htp. lia. }
    rewrite Hn.
    change (1 + 1) with 2 in Hrest.
    rewrite (fetchPages_serves agentDid ps 2 (data p1) w1 w' _ Hrest).
    reflexivity.
  - assert (ps = []) by (destruct ps; [reflexivity | discriminate]).
    subst ps. inversion Hrest; subst.
    cbn. now rewrite app_nil_r.
Qed.

Lemma rated_length (reviews : list Attestation) (values : list JVal) :
  rated JSON_parse reviews values -> List.length reviews = List.length values.
Proof.
  intros H. apply (f_equal (@List.length _)) in H. now rewrite !length_map in H.
Qed.

Lemma reduce_addStars_rated (reviews : list Attestation) :
  forall (values : list JVal) (acc : number),
    rated JSON_parse reviews values ->
    reduce (addStars JSON_parse StringToNumber) reviews acc
    = Ok (fold_left number_add (map (Number StringToNumber) values) acc).
Proof.
  unfold rated.
  induction reviews as [|r reviews IH]; intros [|v values] acc H;
    try discriminate; [reflexivity|].
  cbn [map] in H. injection H as Hr Hrest.
  cbn [reduce map fold_left]. unfold addStars at 1.
  unfold starsOf in Hr.
  destruct (JSON_parse (decodedDataJson r)) as [decoded|e]; [|discriminate].
  destruct (findField "stars" decoded) as [field|]; [|discriminate].
  cbn in Hr. injection Hr as ->.
  now apply IH.
Qed.

Lemma reduce_addStars_unrated (reviews : list Attestation) (att : Attestation) :
  In att reviews ->
  starsOf JSON_parse att = None ->
  forall acc, exists e,
    reduce (addStars JSON_parse StringToNumber) reviews acc = Throw e.
Proof.
  intros Hin Hnone.
  induction reviews as [|r reviews IH]; intros acc; [contradiction|].
  cbn [reduce].
  destruct (addStars JSON_parse StringToNumber acc r) as [acc'|e] eqn:Hr;
    [|now exists e].
  destruct Hin as [->|Hin]; [|now apply IH].
  exfalso. unfold addStars in Hr. unfold starsOf in Hnone.
  destruct (JSON_parse (decodedDataJson att)) as [decoded|e]; [|discriminate].
  destruct (findField "stars" decoded); discriminate.
Qed.

(** C6. Over records that all carry a rating, the total is the sum of the
    [stars] values and the average is that total divided by the record
    count, or 0 when there is no record (binary64 arithmetic throughout);
    for ratings 5, 4, 5 the average rendered to two decimals is [4.67], and
    for no record it is [0.00]. *)
Theorem average_rating :
  forall (reviews : list Attestation) (values : list JVal),
    rated JSON_parse reviews values ->
    let total := sumStars StringToNumber values in
    let count := List.length reviews in
    let average := averageStars total count in
    totalStars JSON_parse StringToNumber reviews = Ok total
    /\ average = (if Nat.eqb count 0 then number_of_Z 0
                  else number_div total (number_of_nat count))
    /\ (map (Number StringToNumber) values = map number_of_Z [5; 4; 5] ->
        Number_toFixed Number_toString 2 average = "4.67")
    /\ (count = 0%nat -> Number_toFixed Number_toString 2 average = "0.00").
Proof.
  intros reviews values Hrated total count average.
  pose proof (rated_length _ _ Hrated) as Hlen.
  repeat split.
  - unfold totalStars. now apply reduce_addStars_rated.
  - subst average. unfold averageStars. now destruct count.
  - intros H545. subst average total count. unfold sumStars.
    assert (Hthree : List.length reviews = 3%nat).
    { rewrite Hlen, <- (length_map (Number StringToNumber)), H545. reflexivity. }
    rewrite H545, Hthree. vm_compute. reflexivity.
  - intros Hzero. subst average. rewrite Hzero. reflexivity.
Qed.

(** C9. If some fetched record parses but has no field named [stars], the
    aggregation throws, so the listing prints nothing and exits with
    status 1. *)
Theorem missing_stars_aborts :
  forall (agentDid : option string) (w : W) (reviews : list Attestation)
         (s1 : W * list Event) (att : Attestation) (decoded : list Field),
    run (getReviewsForAgent axios_get API_URL SCHEMA agentDid) w = (Ok reviews, s1) ->
    In att reviews ->
    JSON_parse (decodedDataJson att) = Ok decoded ->
    findField "stars" decoded = None ->
    exists e,
      run (main axios_get JSON_parse StringToNumber Number_toString
                API_URL SCHEMA agentDid) w = (Throw e, s1)
      /\ exit_code (fst (run (main axios_get JSON_parse StringToNumber Number_toString
                                   API_URL SCHEMA agentDid) w)) = 1.
Proof.
  intros agentDid w reviews s1 att decoded Hfetch Hin Hparse Hfind.
  assert (Hnone : starsOf JSON_parse att = None).
  { unfold starsOf. now rewrite Hparse, Hfind. }
  destruct (reduce_addStars_unrated reviews att Hin Hnone (number_of_Z 0)) as [e He].
  exists e.
  assert (Hmain : run (main axios_get JSON_parse StringToNumber Number_toString
                            API_URL SCHEMA agentDid) w = (Throw e, s1)).
  { unfold run, main, bind in *. rewrite Hfetch.
    unfold lift, totalStars. now rewrite He. }
  rewrite Hmain. split; reflexivity.
Qed.

End IdentityReviewsFacts.

Section IdentityReviewsRuns.
Import IdentityReviews ObserveIndex MockIndex.

Lemma mock_index_serves :
  serves axios_get (map url_of (pageNumbers 1 (pagesRequested (totalPages page1))))
         [page1; page2; page3] tt tt.
Proof.
  repeat (eapply serves_cons; [reflexivity|]). apply serves_nil.
Qed.

(** Three pages of 20, 20 and 7 items are drained into 47 items, the
    items of page 1 first and those of page 3 last. *)
Lemma getReviewsForAgent_drains_20_20_7 :
  (run (getReviewsForAgent axios_get API_URL SCHEMA agent) tt
   = (Ok (items 0 20 ++ items 20 20 ++ items 40 7)%list,
      (tt, fetched [url_of 1; url_of 2; url_of 3] [page1; page2; page3])))
  /\ List.length (items 0 20 ++ items 20 20 ++ items 40 7)%list = 47%nat.
Proof.
  exact (getReviewsForAgent_drains_pages axios_get API_URL SCHEMA agent
           page1 [page2; page3] tt tt mock_index_serves).
Defined.

Lemma reviews_545_rated :
  rated JSON_parse reviews_545
        [JNum (number_of_Z 5); JNum (number_of_Z 4); JNum (number_of_Z 5)].
Proof. reflexivity. Qed.

(** Ratings 5, 4, 5 total 14 and average to 14/3, printed as [4.67]; the
    listing prints that line after the agent's DID. *)
Lemma average_rating_545 :
  totalStars JSON_parse StringToNumber reviews_545 = Ok (number_of_Z 14)
  /\ Number_toFixed Number_toString 2
       (averageStars (number_of_Z 14) 3) = "4.67"
  /\ firstn 2 (console (snd (snd (run (main axios_get_545 JSON_parse StringToNumber
                                            Number_toString API_URL SCHEMA agent)
                                      tt))))
     = ["🆔 Agent DID: did:iden3:billions:test:agent"; "⭐ 4.67 (3 reviews)"].
Proof.
  destruct (average_rating JSON_parse StringToNumber Number_toString reviews_545
              _ reviews_545_rated) as (Htotal & _ & Hrender & _).
  split; [exact Htotal|]. split; [exact (Hrender eq_refl)|].
  vm_compute. reflexivity.
Defined.

(** Without any review the listing prints [0.00]. *)
Lemma average_rating_none :
  Number_toFixed Number_toString 2 (averageStars (number_of_Z 0) 0) = "0.00".
Proof. reflexivity. Qed.

(** A record without rating among the fetched ones makes the listing fail. *)
Lemma missing_stars_aborts_unrated :
  exists e,
    run (main axios_get_unrated JSON_parse StringToNumber Number_toString
              API_URL SCHEMA agent) tt
    = (Throw e, (tt, [HttpGet (url_of 1) (Ok {| data := reviews_unrated;
                                                totalPages := 1 |})]))
    /\ exit_code (fst (run (main axios_get_unrated JSON_parse StringToNumber
                                 Number_toString API_URL SCHEMA agent) tt)) = 1.
Proof.
  exact (missing_stars_aborts axios_get_unrated JSON_parse StringToNumber
           Number_toString API_URL SCHEMA agent tt reviews_unrated _
           (review "comment only") _ eq_refl (or_intror (or_introl eq_refl))
           eq_refl eq_refl).
Defined.

End IdentityReviewsRuns.

(** ** Authentication and attestation *)

(** Symbolic execution of a run: case analysis on the outcome of every
    call and test, innermost scrutinee first. *)
Ltac innermost x :=
  lazymatch x with
  | context [match ?y with _ => _ end] => innermost y
  | _ => x
  end.

Ltac step_in H :=
  match type of H with
  | context [match ?x with _ => _ end] =>
    let y := innermost x in destruct y eqn:?
  end.

Ltac execute_in H :=
  unfold run, Attest.main, Attest.verifyAttestation,
    Utils.checkAuthenticationAuthV2, Utils.authenticate,
    Utils.submitAuthentication, bind, perform, lift, throw, ret, try_catch in H;
  repeat (step_in H; try discriminate);
  injection H as <- <-.

(** Replaying a run along the outcomes recorded in the context. *)
Ltac replay :=
  repeat (cbv beta iota;
          match goal with
          | H : ?x = _ |- context [match ?x with _ => _ end] => rewrite H
          end);
  cbv beta iota.

Ltac replay_in G :=
  repeat (cbv beta iota in G;
          match type of G with
          | context [match ?x with _ => _ end] =>
            match goal with H : x = _ |- _ => rewrite H in G end
          end);
  cbv beta iota in G.

Ltac observe_in G :=
  cbn [snd fst app flat_map Observe.candidateOf Observe.created
       Observe.initialBinding Observe.bindingsRead hd_error
       Observe.requeried Observe.attestationReceipt
       writes filter is_write is_attestation_write] in G.

Ltac observe :=
  cbn [snd fst app flat_map Observe.candidateOf Observe.created
       Observe.initialBinding Observe.bindingsRead hd_error
       Observe.requeried Observe.attestationReceipt
       writes filter is_write is_attestation_write].

Section ChainFacts.
Import Utils Attest Observe SchemaShape.
Context {W : Type} (E : Externals W).

Lemma needsAuthentication_false (c u : Z) :
  needsAuthentication c u = false -> c = u /\ c <> 0.
Proof.
  unfold needsAuthentication. intros H.
  apply orb_false_elim in H as [H0 H1].
  apply Z.eqb_neq in H0. apply negb_false_iff, Z.eqb_eq in H1. auto.
Qed.

Lemma needsAuthentication_same (c : Z) :
  c <> 0 -> needsAuthentication c c = false.
Proof.
  intros H. unfold needsAuthentication.
  apply Z.eqb_neq in H. now rewrite H, Z.eqb_refl.
Qed.

Lemma BigInt_toString_inj (x y : Z) :
  BigInt_toString x = BigInt_toString y -> x = y.
Proof.
  unfold BigInt_toString. intros H.
  apply DecimalZ.to_int_inj.
  apply (f_equal NilEmpty.int_of_string) in H.
  rewrite !NilEmpty.isi in H. congruence.
Qed.

Lemma idsDiffer_spec (c u : Z) : idsDiffer c u = negb (c =? u).
Proof.
  unfold idsDiffer. f_equal.
  destruct (Z.eqb_spec c u) as [->|Hne].
  - apply String.eqb_refl.
  - apply String.eqb_neq. intros H. apply Hne. now apply BigInt_toString_inj.
Qed.

(** Whatever the branch taken, the ID returned is the one derived from the
    identity the run created. *)
Lemma returned_id_is_candidate schemaId wallet opts (w : W) r s' :
  run (checkAuthenticationAuthV2 E schemaId wallet opts) w = (Ok r, s') ->
  candidateOf E (snd s') = Some (userId r).
Proof.
  intros H. execute_in H; observe; replay; cbn [userId]; try reflexivity.
  match goal with
  | Hn : needsAuthentication ?c ?u = false |- _ =>
    apply needsAuthentication_false in Hn as [-> _]
  end.
  reflexivity.
Qed.

(** What a successful run returns besides the ID. *)
Lemma returned_shape schemaId wallet opts (w : W) r s' :
  run (checkAuthenticationAuthV2 E schemaId wallet opts) w = (Ok r, s') ->
  DID_parseFromId E (userId r) = Ok (userDid r)
  /\ attestationRegistry r
     = {| target := attestationRegistryContractAddress opts; runner := wallet |}
  /\ signerAddress r = address wallet.
Proof.
  intros H. execute_in H; cbn [userId userDid attestationRegistry signerAddress];
    auto.
Qed.

(** C8. The branch for an already authenticated signer is entered only with
    a non-zero on-chain ID equal to the local one, so its test on the two
    decimal strings is false and the assignment under it never runs; a run
    that returns without a write transaction returns the locally derived
    candidate ID, which is then also the ID it read from the chain. *)
Theorem reconciliation_unreachable :
  forall schemaId wallet opts (w : W) r s',
    run (checkAuthenticationAuthV2 E schemaId wallet opts) w = (Ok r, s') ->
    writes (snd s') = [] ->
    candidateOf E (snd s') = Some (userId r)
    /\ initialBinding (snd s') = Some (userId r)
    /\ (forall currentUserId userId : Z,
           needsAuthentication currentUserId userId = false ->
           currentUserId <> 0 /\ currentUserId = userId
           /\ idsDiffer currentUserId userId = false).
Proof.
  intros schemaId wallet opts w r s' H Hw.
  split; [now apply (returned_id_is_candidate schemaId wallet opts w)|].
  split.
  - execute_in H; observe_in Hw; try discriminate; observe; cbn [userId].
    + reflexivity.
    + match goal with
      | Hn : needsAuthentication ?c ?u = false |- _ =>
        apply needsAuthentication_false in Hn as [-> _]
      end.
      reflexivity.
  - intros c u Hn. apply needsAuthentication_false in Hn as [-> Hc].
    repeat split; auto.
    rewrite idsDiffer_spec, Z.eqb_refl. reflexivity.
Qed.

(** C4, as the code has it. A schema identifier that does not start with
    [0x] or whose length is not 66 makes the run fail with the format error
    before any call leaves the process: the world is untouched and the
    trace is empty. *)
Theorem malformed_schemaId_rejected_before_any_call :
  forall schemaId wallet opts (w : W),
    startsWith schemaId "0x" = false \/ String.length schemaId <> 66%nat ->
    run (checkAuthenticationAuthV2 E schemaId wallet opts) w
    = (Throw invalid_schema_format, (w, [])).
Proof.
  intros schemaId wallet opts w H.
  assert (Hrej : schemaId_rejected schemaId = true).
  { unfold schemaId_rejected. destruct H as [-> | H]; [reflexivity|].
    apply Nat.eqb_neq in H. rewrite H. apply orb_true_r. }
  unfold run, checkAuthenticationAuthV2. now rewrite Hrej.
Qed.

(** C7. If, in a run of either script, the ID read back after the
    authentication response was submitted and its inclusion awaited is
    still zero, [checkAuthenticationAuthV2] throws, the script ends with
    that error and status 1, and no attestation is ever recorded. *)
Theorem ineffective_authentication_is_fatal :
  forall (sc : Script) (cfg : Config) (values : Values) (w : W) res s',
    run (main E sc cfg values) w = (res, s') ->
    requeried (snd s') = Some 0 ->
    (exists wallet,
        Wallet_new E (template (env_privateKey cfg)) (template (env_rpcUrl cfg))
        = Ok wallet
        /\ run (checkAuthenticationAuthV2 E (template (env_schemaId cfg)) wallet
                  (opts_of cfg)) w
           = (Throw (user_authentication_failed (could_not_authenticate method_error)),
              s'))
    /\ res = Throw (user_authentication_failed (could_not_authenticate method_error))
    /\ filter is_attestation_write (snd s') = []
    /\ exit_code res = 1.
Proof.
  intros sc cfg values w res s' H Hq.
  execute_in H; observe_in Hq; try discriminate.
  all: injection Hq as ->; try discriminate.
  split; [|repeat split; reflexivity].
  eexists. split; [reflexivity|].
  unfold run, checkAuthenticationAuthV2, authenticate, submitAuthentication,
    bind, perform, lift, throw, ret, try_catch.
  replay. reflexivity.
Qed.

(** Without a decodable [AttestationRecorded] event, the search finds
    nothing. *)
Lemma no_event_found (registry : Contract) (receipt : option Receipt) :
  (forall log parsed,
      In log (logs_of receipt) ->
      parseLog E registry log = Ok (Some parsed) ->
      name parsed <> "AttestationRecorded") ->
  findAttestationRecorded E registry receipt = None.
Proof.
  destruct receipt as [r|]; [|reflexivity].
  cbn [logs_of findAttestationRecorded]. intros H.
  induction (logs r) as [|log rest IH]; [reflexivity|].
  cbn [find]. unfold isAttestationRecorded at 1.
  destruct (parseLog E registry log) as [[parsed|]|e] eqn:Hp.
  - destruct (String.eqb_spec (name parsed) "AttestationRecorded") as [Heq|_].
    + exfalso. now apply (H log parsed (or_introl eq_refl) Hp).
    + apply IH. intros l p Hin. apply H. now right.
  - apply IH. intros l p Hin. apply H. now right.
  - apply IH. intros l p Hin. apply H. now right.
Qed.

(** C3. In a run of either script that obtained the receipt of its
    attestation transaction, if no log of the receipt decodes to an event
    named [AttestationRecorded], the script fails with the error for the
    missing identifier and status 1, without reading any attestation back;
    a log whose decoding throws is passed over by the search. *)
Theorem missing_event_is_an_error :
  forall (sc : Script) (cfg : Config) (values : Values) (w : W) res s' receipt,
    run (main E sc cfg values) w = (res, s') ->
    attestationReceipt (snd s') = Some receipt ->
    (forall registry log parsed,
        In log (logs_of receipt) ->
        parseLog E registry log = Ok (Some parsed) ->
        name parsed <> "AttestationRecorded") ->
    res = Throw record_id_missing
    /\ exit_code res = 1
    /\ (forall ev, In ev (snd s') ->
          match ev with GetAttestation _ _ => False | _ => True end)
    /\ (forall registry log rest gas e,
           parseLog E registry log = Throw e ->
           findAttestationRecorded E registry
             (Some {| logs := log :: rest; gasUsed := gas |})
           = findAttestationRecorded E registry
               (Some {| logs := rest; gasUsed := gas |})).
Proof.
  intros sc cfg values w res s' receipt H Hr Hlogs.
  assert (Hskip : forall registry log rest gas e,
             parseLog E registry log = Throw e ->
             findAttestationRecorded E registry
               (Some {| logs := log :: rest; gasUsed := gas |})
             = findAttestationRecorded E registry
                 (Some {| logs := rest; gasUsed := gas |})).
  { intros registry log rest gas e Hp.
    cbn [findAttestationRecorded logs find]. unfold isAttestationRecorded at 1.
    now rewrite Hp. }
  execute_in H; observe_in Hr; try discriminate.
  all: injection Hr as <-.
  all: match goal with
       | Hf : findAttestationRecorded E ?reg ?rc = Some _ |- _ =>
         rewrite (no_event_found reg rc (Hlogs reg)) in Hf; discriminate
       | _ => idtac
       end.
  all: repeat split; auto.
  all: cbn [snd]; intros ev Hin.
  all: repeat (destruct Hin as [<-|Hin]; [exact I|]); contradiction.
Qed.

(** C2, as the code has it. After a first run that returned a non-zero ID,
    a second run for the same signer and schema that reads that ID as the
    on-chain binding and derives it again as its local candidate submits no
    write transaction and returns what the first run returned. *)
Theorem second_run_is_read_only :
  forall schemaId wallet opts (w0 : W) r1 s1 res2 s2,
    run (checkAuthenticationAuthV2 E schemaId wallet opts) w0 = (Ok r1, s1) ->
    run (checkAuthenticationAuthV2 E schemaId wallet opts) (fst s1) = (res2, s2) ->
    userId r1 <> 0 ->
    initialBinding (snd s2) = Some (userId r1) ->
    candidateOf E (snd s2) = Some (userId r1) ->
    writes (snd s2) = [] /\ res2 = Ok r1.
Proof.
  intros schemaId wallet opts w0 r1 s1 res2 s2 H1 H2 Hnz Hb Hc.
  destruct (returned_shape schemaId wallet opts w0 r1 s1 H1) as (Hdid & Hreg & Hsig).
  clear H1.
  execute_in H2; observe_in Hb; try discriminate; observe_in Hc; replay_in Hc.
  all: injection Hb as Hb; injection Hc as Hc; subst.
  all: try match goal with
           | Hn : needsAuthentication ?c ?c = true |- _ =>
             rewrite (needsAuthentication_same c Hnz) in Hn; discriminate
           end.
  all: try congruence.
  all: split; [reflexivity|].
  all: destruct r1; cbn [userId userDid attestationRegistry signerAddress] in *;
    congruence.
Qed.

(** C1, as the code has it. When the AuthVerifier binds the signer's
    address to an ID [B], not zero and different from the locally derived
    candidate [A], the run does not adopt [B]: it submits an authentication
    response for the local identity, and when the ID read back after the
    inclusion of that response is [A], it returns [A] (with the DID derived
    from it), the ID then bound on-chain for the signer's address. *)
Theorem mismatch_reauthenticates :
  forall schemaId wallet opts (w : W) res s' (A B : Z),
    run (checkAuthenticationAuthV2 E schemaId wallet opts) w = (res, s') ->
    initialBinding (snd s') = Some B ->
    candidateOf E (snd s') = Some A ->
    B <> 0 ->
    B <> A ->
    requeried (snd s') = Some A ->
    A <> 0 ->
    (exists resp tx, In (SubmitResponse resp (Ok tx)) (snd s'))
    /\ res = match DID_parseFromId E A with
             | Ok userDid =>
               Ok {| userId := A;
                     userDid := userDid;
                     attestationRegistry :=
                       {| target := attestationRegistryContractAddress opts;
                          runner := wallet |};
                     signerAddress := address wallet |}
             | Throw e => Throw e
             end.
Proof.
  intros schemaId wallet opts w res s' A B H Hb Hc HB Hne Hq HA.
  execute_in H; observe_in Hb; try discriminate; observe_in Hc; replay_in Hc;
    observe_in Hq; try discriminate.
  all: injection Hb as Hb; injection Hc as Hc; injection Hq as Hq; subst.
  all: try match goal with
           | Hz : (?a =? 0) = true |- _ => apply Z.eqb_eq in Hz; congruence
           end.
  all: split; [do 2 eexists; cbn [snd]; do 6 right; left; reflexivity|].
  all: replay; reflexivity.
Qed.

End ChainFacts.

(** ** Runs against the canned chain *)

Section ChainRuns.
Import Utils Attest Observe MockChain.

(** The signer's address is bound to the ID of the identity the wallet
    restores: the run only reads. *)
Lemma reconciliation_unreachable_bound_run :
  let E := externals true rebinding [] in
  let out := run (checkAuthenticationAuthV2 E schema signer opts)
                 {| bound := 1; identities := 0; attestations := 0 |} in
  candidateOf E (snd (snd out)) = Some 1
  /\ initialBinding (snd (snd out)) = Some 1
  /\ (forall currentUserId userId : Z,
         needsAuthentication currentUserId userId = false ->
         currentUserId <> 0 /\ currentUserId = userId
         /\ idsDiffer currentUserId userId = false).
Proof.
  intros E out.
  apply (reconciliation_unreachable E schema signer opts
           {| bound := 1; identities := 0; attestations := 0 |}
           {| userId := 1; userDid := "did:1";
              attestationRegistry :=
                {| target := attestationRegistryContractAddress opts;
                   runner := signer |};
              signerAddress := address signer |}
           (snd out)); vm_compute; reflexivity.
Defined.

(** The example of the specification: ["0x1234"] is too short. *)
Lemma malformed_schemaId_0x1234 :
  run (checkAuthenticationAuthV2 (externals false rebinding []) "0x1234" signer opts)
      unbound
  = (Throw invalid_schema_format, (unbound, [])).
Proof.
  apply (malformed_schemaId_rejected_before_any_call (externals false rebinding [])
           "0x1234" signer opts unbound).
  right. vm_compute. discriminate.
Defined.

(** C4, as stated, fails: a string of 66 characters that starts with [0x]
    and holds no hexadecimal digit is not of the 32-byte-hex shape, yet it
    passes the guard.  Whatever the environment, the run then goes on to
    create an identity; on the canned chain it fails later, with the error
    of the contract library and not with the format error. *)
Lemma non_hex_schemaId_not_rejected :
  let out := run (checkAuthenticationAuthV2 (externals false rebinding [])
                    not_hex signer opts) unbound in
  SchemaShape.is_bytes32_hex not_hex = false
  /\ schemaId_rejected not_hex = false
  /\ fst out = Throw invalid_bytes32
  /\ snd (snd out)
     = [CreateIdentity (defaultIdentityCreationOptions opts) (Ok "did:1"%string);
        GetSchema not_hex (Throw invalid_bytes32)]
  /\ (forall (W : Type) (E : Externals W) wallet opts (w : W),
         exists r rest,
           snd (snd (run (checkAuthenticationAuthV2 E not_hex wallet opts) w))
           = CreateIdentity (defaultIdentityCreationOptions opts) r :: rest).
Proof.
  intros out.
  split; [vm_compute; reflexivity|]. split; [vm_compute; reflexivity|].
  split; [vm_compute; reflexivity|]. split; [vm_compute; reflexivity|].
  intros W E wallet opts0 w.
  destruct (run (checkAuthenticationAuthV2 E not_hex wallet opts0) w)
    as [res s'] eqn:H.
  execute_in H.
  all: try match goal with
           | Hb : schemaId_rejected not_hex = true |- _ =>
             vm_compute in Hb; discriminate
           end.
  all: cbn [snd]; do 2 eexists; reflexivity.
Qed.

(** A verifier that accepts the response and binds nothing. *)
Lemma ineffective_authentication_inert_run :
  let E := externals false inert [recordedLog] in
  let out := run (main E createReview (config schema) reviewValues) unbound in
  requeried (snd (snd out)) = Some 0
  /\ fst out = Throw (user_authentication_failed (could_not_authenticate method_error))
  /\ filter is_attestation_write (snd (snd out)) = []
  /\ exit_code (fst out) = 1.
Proof.
  intros E out.
  assert (Hq : requeried (snd (snd out)) = Some 0) by (vm_compute; reflexivity).
  destruct (ineffective_authentication_is_fatal E createReview (config schema)
              reviewValues unbound (fst out) (snd out)
              (surjective_pairing out) Hq) as (_ & Hres & Hw & Hx).
  repeat split; assumption.
Defined.

(** A receipt with one log that does not decode and one that decodes to
    another event. *)
Lemma missing_event_run :
  let E := externals false rebinding [foreignLog; otherLog] in
  let out := run (main E createOwnership (config schema) reviewValues) unbound in
  attestationReceipt (snd (snd out))
  = Some (Some {| logs := [foreignLog; otherLog]; gasUsed := 21000 |})
  /\ fst out = Throw record_id_missing
  /\ exit_code (fst out) = 1.
Proof.
  intros E out.
  assert (Hr : attestationReceipt (snd (snd out))
               = Some (Some {| logs := [foreignLog; otherLog]; gasUsed := 21000 |}))
    by (vm_compute; reflexivity).
  assert (Hlogs : forall registry log parsed,
             In log (logs_of (Some {| logs := [foreignLog; otherLog];
                                      gasUsed := 21000 |})) ->
             parseLog E registry log = Ok (Some parsed) ->
             name parsed <> "AttestationRecorded").
  { intros registry log parsed [<-|[<-|[]]] Hp; vm_compute in Hp.
    - discriminate.
    - injection Hp as <-. cbn. discriminate. }
  destruct (missing_event_is_an_error E createOwnership (config schema) reviewValues
              unbound (fst out) (snd out) _ (surjective_pairing out) Hr Hlogs)
    as (Hres & Hx & _).
  repeat split; assumption.
Defined.

(** C2, as stated, fails: the wallet lives in memory, so the second run
    derives a new candidate, finds the address bound to the first one, and
    submits a second authentication response; the two runs return
    different IDs. *)
Lemma second_run_writes_again :
  let E := externals false rebinding [] in
  let first := run (checkAuthenticationAuthV2 E schema signer opts) unbound in
  let second := run (checkAuthenticationAuthV2 E schema signer opts) (fst (snd first)) in
  fst first = Ok {| userId := 1; userDid := "did:1";
                    attestationRegistry :=
                      {| target := attestationRegistryContractAddress opts;
                         runner := signer |};
                    signerAddress := address signer |}
  /\ bound (fst (snd first)) = 1
  /\ initialBinding (snd (snd second)) = Some 1
  /\ writes (snd (snd second))
     = [SubmitResponse {| authMethod := "authV2"; ar_proof := "0xda7a" |} (Ok authTx)]
  /\ fst second = Ok {| userId := 2; userDid := "did:2";
                        attestationRegistry :=
                          {| target := attestationRegistryContractAddress opts;
                             runner := signer |};
                        signerAddress := address signer |}.
Proof.
  vm_compute. repeat split.
Qed.

(** With a wallet that restores its identity, the second run only reads. *)
Lemma second_run_is_read_only_persistent :
  let E := externals true rebinding [] in
  let first := run (checkAuthenticationAuthV2 E schema signer opts) unbound in
  let second := run (checkAuthenticationAuthV2 E schema signer opts) (fst (snd first)) in
  writes (snd (snd first))
  = [SubmitResponse {| authMethod := "authV2"; ar_proof := "0xda7a" |} (Ok authTx)]
  /\ writes (snd (snd second)) = []
  /\ fst second = fst first.
Proof.
  intros E first second.
  assert (H1 : first = (Ok {| userId := 1; userDid := "did:1";
                              attestationRegistry :=
                                {| target := attestationRegistryContractAddress opts;
                                   runner := signer |};
                              signerAddress := address signer |}, snd first))
    by (vm_compute; reflexivity).
  destruct (second_run_is_read_only E schema signer opts unbound _ (snd first)
              (fst second) (snd second) H1 (surjective_pairing second))
    as (Hw & Hres); try (vm_compute; reflexivity).
  - vm_compute. discriminate.
  - split; [vm_compute; reflexivity|]. split; [exact Hw|].
    rewrite Hres. rewrite H1. reflexivity.
Defined.

(** C1, as stated, fails. The address is bound to ID 2 and the run derives
    the candidate 1: the run submits an authentication response and
    returns 1, not 2, whether the verifier then rebinds the address to 1 or
    keeps the binding to 2. *)
Lemma mismatch_returns_local_id :
  let w := {| bound := 2; identities := 0; attestations := 0 |} in
  let expected := {| userId := 1; userDid := "did:1";
                     attestationRegistry :=
                       {| target := attestationRegistryContractAddress opts;
                          runner := signer |};
                     signerAddress := address signer |} in
  let submitted :=
      [SubmitResponse {| authMethod := "authV2"; ar_proof := "0xda7a" |} (Ok authTx)] in
  let out := run (checkAuthenticationAuthV2 (externals false rebinding [])
                    schema signer opts) w in
  let kept := run (checkAuthenticationAuthV2 (externals false first_binding_wins [])
                     schema signer opts) w in
  (initialBinding (snd (snd out)) = Some 2
   /\ candidateOf (externals false rebinding []) (snd (snd out)) = Some 1
   /\ fst out = Ok expected
   /\ writes (snd (snd out)) = submitted
   /\ bound (fst (snd out)) = 1)
  /\ (initialBinding (snd (snd kept)) = Some 2
      /\ fst kept = Ok expected
      /\ writes (snd (snd kept)) = submitted
      /\ bound (fst (snd kept)) = 2).
Proof.
  vm_compute. repeat split.
Qed.

(** The rebinding verifier: the run re-authenticates and returns the ID it
    reads back. *)
Lemma mismatch_reauthenticates_rebinding_run :
  let E := externals false rebinding [] in
  let out := run (checkAuthenticationAuthV2 E schema signer opts)
                 {| bound := 2; identities := 0; attestations := 0 |} in
  (exists resp tx, In (SubmitResponse resp (Ok tx)) (snd (snd out)))
  /\ fst out = Ok {| userId := 1; userDid := "did:1";
                     attestationRegistry :=
                       {| target := attestationRegistryContractAddress opts;
                          runner := signer |};
                     signerAddress := address signer |}
  /\ requeried (snd (snd out)) = Some 1
  /\ bound (fst (snd out)) = 1.
Proof.
  intros E out.
  assert (Hq : requeried (snd (snd out)) = Some 1) by (vm_compute; reflexivity).
  destruct (mismatch_reauthenticates E schema signer opts _ (fst out) (snd out) 1 2
              (surjective_pairing out)) as (Hsub & Hres);
    try (vm_compute; reflexivity); try (vm_compute; discriminate).
  split; [exact Hsub|]. split; [exact Hres|]. split; [exact Hq|].
  vm_compute. reflexivity.
Defined.

End ChainRuns.

(** ** More on authentication and attestation *)

Section ChainMoreFacts.
Import Utils Attest Observe ObserveMore.
Context {W : Type} (E : Externals W).

(** The calls of [checkAuthenticationAuthV2] follow one fixed sequence:
    the four calls of the lookup, then, when authentication is needed, the
    five of the authentication; a run that returns has made exactly the
    four or exactly the nine, so it has submitted at most one response, and
    it never touches the attestation registry. *)
Theorem authentication_call_sequence :
  forall schemaId wallet opts (w : W),
    let out := run (checkAuthenticationAuthV2 E schemaId wallet opts) w in
    let calls := map kind (snd (snd out)) in
    is_prefix calls (lookupCalls ++ authenticationCalls)
    /\ match fst out with
       | Ok _ => calls = lookupCalls
                 \/ calls = (lookupCalls ++ authenticationCalls)%list
       | Throw _ => True
       end.
Proof.
  intros schemaId wallet opts w out calls. subst calls out.
  destruct (run (checkAuthenticationAuthV2 E schemaId wallet opts) w)
    as [res s'] eqn:H.
  execute_in H; cbn [fst snd map kind]; unfold is_prefix.
  all: split; [eexists; reflexivity | auto].
Qed.

(** What a return of [checkAuthenticationAuthV2] guarantees: the last ID
    read from the AuthVerifier for the signer's address was not zero, the
    ID returned is the one of the identity the run created, the DID
    returned is derived from the ID returned, the registry handle is the
    configured address driven by the wallet, and the signer's address is
    the wallet's. *)
Theorem return_guarantees :
  forall schemaId wallet opts (w : W),
    let out := run (checkAuthenticationAuthV2 E schemaId wallet opts) w in
    match fst out with
    | Ok r =>
      lastBinding (snd (snd out)) <> 0
      /\ candidateOf E (snd (snd out)) = Some (userId r)
      /\ DID_parseFromId E (userId r) = Ok (userDid r)
      /\ attestationRegistry r
         = {| target := attestationRegistryContractAddress opts; runner := wallet |}
      /\ signerAddress r = address wallet
    | Throw _ => True
    end.
Proof.
  intros schemaId wallet opts w out. subst out.
  destruct (run (checkAuthenticationAuthV2 E schemaId wallet opts) w)
    as [res s'] eqn:H.
  destruct res as [r|e]; cbn [fst snd]; [|exact I].
  destruct (returned_shape E schemaId wallet opts w r s' H) as (Hd & Hr & Hs).
  pose proof (returned_id_is_candidate E schemaId wallet opts w r s' H) as Hc.
  repeat split; try assumption.
  clear Hd Hr Hs Hc.
  execute_in H; unfold lastBinding; observe; cbn [last].
  - match goal with Hz : (?a =? 0) = false |- _ => now apply Z.eqb_neq in Hz end.
  - match goal with
    | Hn : needsAuthentication ?c ?u = false |- _ =>
      now apply needsAuthentication_false in Hn as [_ Hz]
    end.
  - match goal with
    | Hn : needsAuthentication ?c ?u = false |- _ =>
      now apply needsAuthentication_false in Hn as [_ Hz]
    end.
Qed.

(** When the schema registry answers the empty record (identifier zero),
    the run stops with the error naming the schema identifier, after the
    identity was created and the schema read, and before any other call. *)
Theorem unknown_schema_stops_the_run :
  forall schemaId wallet opts (w : W) res s' record,
    run (checkAuthenticationAuthV2 E schemaId wallet opts) w = (res, s') ->
    In (GetSchema schemaId (Ok record)) (snd s') ->
    sr_id record = ZeroHash ->
    res = Throw (schema_not_found schemaId)
    /\ map kind (snd s') = [KCreateIdentity; KGetSchema]
    /\ writes (snd s') = [].
Proof.
  intros schemaId wallet opts w res s' record H Hin Hzero.
  execute_in H; cbn [snd] in Hin.
  all: repeat (destruct Hin as [Hin|Hin]; [try discriminate|]); try contradiction.
  all: try (injection Hin as <-).
  all: try match goal with
           | Hb : String.eqb (sr_id _) ZeroHash = false |- _ =>
             rewrite Hzero in Hb; discriminate
           end.
  repeat split.
Qed.

(** Once the verifier has been asked whether the method exists, every
    failure of the authentication leaves the function as one and the same
    error: a method that is not registered, a response that is rejected, an
    inclusion that fails, a read that fails and an ID that is still zero
    cannot be told apart by the caller.  The only other error such a run
    can end with is that of deriving the DID, after a non-zero ID was read
    back.  When the method is not registered, no response is submitted,
    although the proof has been generated. *)
Theorem authentication_failures_are_masked :
  forall schemaId wallet opts (w : W) e s' m outcome,
    run (checkAuthenticationAuthV2 E schemaId wallet opts) w = (Throw e, s') ->
    In (AuthMethodExists m outcome) (snd s') ->
    (e = user_authentication_failed (could_not_authenticate method_error)
     \/ exists A c, requeried (snd s') = Some A /\ A <> 0
                    /\ candidateOf E (snd s') = Some c
                    /\ DID_parseFromId E c = Throw e)
    /\ (outcome = Ok false ->
        e = user_authentication_failed (could_not_authenticate method_error)
        /\ writes (snd s') = []
        /\ map kind (snd s')
           = (lookupCalls ++ [KGenerateAuthProof; KAuthMethodExists])%list).
Proof.
  intros schemaId wallet opts w e s' m outcome H Hin.
  execute_in H; cbn [snd] in Hin.
  all: repeat (destruct Hin as [Hin|Hin]; [try discriminate|]); try contradiction.
  all: injection Hin as <- <-.
  all: split; [|intros Hout; try discriminate;
                 injection Hout as ->; try discriminate; repeat split].
  all: try (left; reflexivity).
  right. do 2 eexists. observe. replay.
  repeat split; try reflexivity; try assumption.
  match goal with Hz : (?a =? 0) = false |- _ => now apply Z.eqb_neq in Hz end.
Qed.

End ChainMoreFacts.

Section ResponseFacts.
Import WalletSetup Utils Attest Observe ObserveMore.
Context {W : Type} (E : Externals W).

(** Every authentication response that is submitted names the method
    [authV2], which the verifier has just confirmed to know, and carries
    the encoding of the public signals and of the prepared proof that this
    run generated, with the circuit [authV2], for the identity it created
    and the challenge computed from the wallet's address. *)
Theorem submitted_response_carries_generated_proof :
  forall schemaId wallet opts (w : W) res s' response outcome,
    run (checkAuthenticationAuthV2 E schemaId wallet opts) w = (res, s') ->
    In (SubmitResponse response outcome) (snd s') ->
    exists userDID challenge zkpRes prepared,
      created (snd s') = [userDID]
      /\ calcChallengeAuthV2 E (address wallet) = Ok challenge
      /\ In (GenerateAuthProof "authV2" userDID challenge (Ok zkpRes)) (snd s')
      /\ In (AuthMethodExists "authV2" (Ok true)) (snd s')
      /\ prepareZkpProof (proof zkpRes) = Ok prepared
      /\ AbiCoder_encode E
           ["uint256[] inputs"; "uint256[2]"; "uint256[2][2]"; "uint256[2]"]
           [ VStrs (pub_signals zkpRes); VStrs (a prepared);
             VArr (map (fun r => VArr (map VOpt r)) (b prepared));
             VStrs (c prepared) ]
         = Ok (ar_proof response)
      /\ authMethod response = "authV2".
Proof.
  intros schemaId wallet opts w res s' response outcome H Hin.
  execute_in H; cbn [snd] in Hin.
  all: repeat (destruct Hin as [Hin|Hin]; [try discriminate|]); try contradiction.
  all: injection Hin as <- <-.
  all: match goal with
       | Hb : negb ?x = false |- _ => apply negb_false_iff in Hb; subst x
       end.
  all: do 4 eexists; observe; cbn [authMethod ar_proof].
  all: repeat split; try reflexivity; try eassumption.
  all: cbn [snd]; auto 20 using in_eq, in_cons.
Qed.

End ResponseFacts.


Section ScriptMoreFacts.
Import Utils Attest Observe ObserveMore.
Context {W : Type} (E : Externals W).



(** The calls of either script follow one fixed sequence: the lookup,
    possibly the authentication, then the four calls of the attestation; a
    script that succeeds has made all of them, so it submits at most two
    transactions, the authentication response before the attestation. *)
Theorem script_call_sequence :
  forall (sc : Script) (cfg : Config) (values : Values) (w : W),
    let out := run (main E sc cfg values) w in
    let calls := map kind (snd (snd out)) in
    (is_prefix calls (lookupCalls ++ attestationCalls)
     \/ is_prefix calls (lookupCalls ++ authenticationCalls ++ attestationCalls))
    /\ match fst out with
       | Ok _ => calls = (lookupCalls ++ attestationCalls)%list
                 \/ calls = (lookupCalls ++ authenticationCalls ++ attestationCalls)%list
       | Throw _ => True
       end.
Proof.
  intros sc cfg values w out calls. subst calls out.
  destruct (run (main E sc cfg values) w) as [res s'] eqn:H.
  execute_in H; cbn [fst snd map kind]; unfold is_prefix.
  all: split; [first [left; eexists; reflexivity | right; eexists; reflexivity]
              | first [exact I | left; reflexivity | right; reflexivity]].
Qed.

(** Every attestation either script submits is the one request built from
    the run: the schema of the settings, as attester the ID of the identity
    the run created with the DID derived from that ID and the wallet's
    address, the recipient of the command line with its defaults, no
    expiry, revocable, no reference, and the encoded payload; and it is
    submitted only after a non-zero ID was read from the AuthVerifier for
    the signer's address. *)
Theorem recorded_attestation_names_the_local_identity :
  forall (sc : Script) (cfg : Config) (values : Values) (w : W) res s' request,
    run (main E sc cfg values) w = (res, s') ->
    In request (recorded (snd s')) ->
    exists wallet A userDid encodedData,
      Wallet_new E (template (env_privateKey cfg)) (template (env_rpcUrl cfg)) = Ok wallet
      /\ candidateOf E (snd s') = Some A
      /\ DID_parseFromId E A = Ok userDid
      /\ AbiCoder_encode E (dataTypes sc) (dataValues sc values) = Ok encodedData
      /\ lastBinding (snd s') <> 0
      /\ recorded (snd s') = [request]
      /\ request
         = {| rq_schemaId := template (env_schemaId cfg);
              rq_attester := {| did := userDid; iden3Id := IdBig A;
                                ethereumAddress := address wallet |};
              rq_recipient :=
                {| did := or_default (recipientDid values) "";
                   iden3Id := IdStr (or_default (recipientId values) "0");
                   ethereumAddress := or_default (recipientAddress values) ZeroAddress |};
              rq_expirationTime := 0;
              rq_revocable := true;
              rq_refId := ZeroHash;
              rq_data := encodedData |}.
Proof.
  intros sc cfg values w res s' request H Hin.
  execute_in H; cbn [snd recorded flat_map app] in Hin; try contradiction.
  all: destruct Hin as [<-|[]].
  all: try match goal with
           | Hn : needsAuthentication ?c ?u = false |- _ =>
             apply needsAuthentication_false in Hn as [-> Hz]
           end.
  all: try match goal with
           | Hz : (?a =? 0) = false |- _ => apply Z.eqb_neq in Hz
           end.
  all: do 4 eexists; unfold lastBinding; observe; replay;
    cbn [recorded flat_map app last userId userDid signerAddress].
  all: repeat split; try reflexivity; try eassumption.
Qed.

End ScriptMoreFacts.

Section ReadBackFacts.
Import Utils Attest Observe ObserveMore.
Context {W : Type} (E : Externals W).

Lemma find_first {A} (f : A -> bool) (l : list A) (x : A) :
  find f l = Some x ->
  exists before after,
    l = (before ++ x :: after)%list
    /\ f x = true
    /\ Forall (fun y => f y = false) before.
Proof.
  induction l as [|y l IH]; [discriminate|].
  cbn [find]. destruct (f y) eqn:Hy.
  - intros [= ->]. exists [], l. repeat split; auto.
  - intros H. destruct (IH H) as (before & after & -> & Hx & Hb).
    exists (y :: before), after. repeat split; auto.
Qed.

Lemma found_event (registry : Contract) (receipt : option Receipt) (log : Log) :
  findAttestationRecorded E registry receipt = Some log ->
  exists before after parsed,
    logs_of receipt = (before ++ log :: after)%list
    /\ Forall (fun l => isAttestationRecorded E registry l = false) before
    /\ parseLog E registry log = Ok (Some parsed)
    /\ name parsed = "AttestationRecorded".
Proof.
  destruct receipt as [r|]; [|discriminate].
  cbn [findAttestationRecorded logs_of]. intros H.
  destruct (find_first _ _ _ H) as (before & after & Hl & Hx & Hb).
  unfold isAttestationRecorded in Hx.
  destruct (parseLog E registry log) as [[parsed|]|e]; try discriminate.
  exists before, after, parsed. repeat split; auto.
  now apply String.eqb_eq.
Qed.

(** A script that succeeds has read back the attestation whose identifier
    is the first argument of the first log of the receipt, in receipt
    order, that decodes to an event named [AttestationRecorded], and has
    asked for the validity of that same identifier. *)
Theorem read_back_uses_first_recorded_event :
  forall (sc : Script) (cfg : Config) (values : Values) (w : W),
    let out := run (main E sc cfg values) w in
    match fst out with
    | Throw _ => True
    | Ok _ =>
      exists wallet receipt before log after parsed stored valid,
        Wallet_new E (template (env_privateKey cfg)) (template (env_rpcUrl cfg))
        = Ok wallet
        /\ attestationReceipt (snd (snd out)) = Some receipt
        /\ logs_of receipt = (before ++ log :: after)%list
        /\ Forall (fun l =>
                     isAttestationRecorded E
                       {| target := attestationRegistryContractAddress (opts_of cfg);
                          runner := wallet |} l = false) before
        /\ parseLog E {| target := attestationRegistryContractAddress (opts_of cfg);
                         runner := wallet |} log = Ok (Some parsed)
        /\ name parsed = "AttestationRecorded"
        /\ In (GetAttestation (nth_error (args parsed) 0) (Ok stored)) (snd (snd out))
        /\ In (IsAttestationValid (nth_error (args parsed) 0) (Ok valid))
              (snd (snd out))
    end.
Proof.
  intros sc cfg values w out. subst out.
  destruct (run (main E sc cfg values) w) as [res s'] eqn:H.
  destruct res as [u|e]; cbn [fst snd]; [|exact I].
  execute_in H.
  all: cbn [attestationRegistry] in *.
  all: match goal with
       | Hf : findAttestationRecorded E _ _ = Some _ |- _ =>
         destruct (found_event _ _ _ Hf) as (before & after & parsed & Hl & Hb & Hp & Hn)
       end.
  all: match goal with
       | Hq : parseLog E ?reg ?l = Ok ?o, Hp : parseLog E ?reg ?l = Ok (Some ?p) |- _ =>
         rewrite Hp in Hq; try discriminate; injection Hq as <-
       end.
  all: do 8 eexists; observe.
  all: repeat split; try reflexivity; try eassumption.
  all: cbn [snd]; auto 20 using in_eq, in_cons.
Qed.

(** What the registry answers about the validity of the attestation does
    not change the outcome: once the answer has arrived, the script
    succeeds, also when the answer is that the attestation is not valid. *)
Theorem validity_is_not_checked :
  forall (sc : Script) (cfg : Config) (values : Values) (w : W) res s'
         attestationId valid,
    run (main E sc cfg values) w = (res, s') ->
    In (IsAttestationValid attestationId (Ok valid)) (snd s') ->
    res = Ok tt /\ exit_code res = 0.
Proof.
  intros sc cfg values w res s' attestationId valid H Hin.
  execute_in H; cbn [snd] in Hin.
  all: repeat (destruct Hin as [Hin|Hin]; [try discriminate|]); try contradiction.
  all: split; reflexivity.
Qed.

End ReadBackFacts.

(** ** More on the listing script *)

Section ListingMoreFacts.
Import IdentityReviews ObserveIndex ObserveMore.

Context {W : Type}.
Variable axios_get : string -> W -> Result Page * W.
Variable JSON_parse : string -> Result (list Field).
Variable StringToNumber : string -> number.
Variable Number_toString : number -> string.
Variable API_URL SCHEMA : option string.

(** When a request of the loop fails, the loop ends with its error. *)
Lemma fetchPages_fails (agentDid : option string) (ps : list Page) :
  forall (remaining : nat) (page : Z) (reviews : list Attestation)
         (w w1 w2 : W) (tr : list Event) (e : JsError),
    serves axios_get
           (map (url API_URL SCHEMA agentDid) (pageNumbers page (List.length ps)))
           ps w w1 ->
    axios_get (url API_URL SCHEMA agentDid (page + Z.of_nat (List.length ps))) w1
    = (Throw e, w2) ->
    (List.length ps < remaining)%nat ->
    fetchPages axios_get API_URL SCHEMA agentDid remaining page reviews (w, tr)
    = (Throw e,
       (w2, (tr ++ fetched (map (url API_URL SCHEMA agentDid)
                                (pageNumbers page (List.length ps))) ps
                ++ [HttpGet (url API_URL SCHEMA agentDid
                                 (page + Z.of_nat (List.length ps))) (Throw e)])%list)).
Proof.
  induction ps as [|p ps IH]; intros remaining page reviews w w1 w2 tr e Hs Hfail Hlt.
  - inversion Hs; subst. cbn [List.length Z.of_nat] in Hfail. rewrite Z.add_0_r in Hfail.
    destruct remaining as [|k]; [lia|].
    cbn [fetchPages]. unfold bind, get, perform. rewrite Hfail.
    cbn [List.length Z.of_nat pageNumbers seq map fetched combine app].
    now rewrite Z.add_0_r.
  - cbn [List.length] in *. rewrite pageNumbers_succ in *. cbn [map] in *.
    inversion Hs as [|u us p' ps' w0 w3 w4 Hget Hrest]; subst.
    destruct remaining as [|k]; [lia|].
    cbn [fetchPages]. unfold bind, get, perform. rewrite Hget.
    replace (page + Z.of_nat (S (List.length ps)))
      with (page + 1 + Z.of_nat (List.length ps)) in * by lia.
    rewrite (IH k (page + 1) (reviews ++ data p)%list w3 w1 w2 _ e Hrest Hfail)
      by lia.
    cbn [fetched combine map fst snd].
    now rewrite <- !app_assoc.
Qed.

(** A failing request aborts the listing: when the pages before it were
    served and the index fails on the next of the pages to be requested,
    [getReviewsForAgent] ends with that error, returns none of the items
    already fetched, and requests no further page; the script then prints
    nothing and exits with status 1. *)
Theorem failed_page_aborts_listing :
  forall (agentDid : option string) (served : list Page) (w w1 w2 : W) (e : JsError),
    let k := List.length served in
    let failing := url API_URL SCHEMA agentDid (1 + Z.of_nat k) in
    let trace :=
        (fetched (map (url API_URL SCHEMA agentDid) (pageNumbers 1 k)) served
         ++ [HttpGet failing (Throw e)])%list in
    serves axios_get (map (url API_URL SCHEMA agentDid) (pageNumbers 1 k)) served w w1 ->
    (k < match served with
         | [] => 1
         | p1 :: _ => pagesRequested (totalPages p1)
         end)%nat ->
    axios_get failing w1 = (Throw e, w2) ->
    run (getReviewsForAgent axios_get API_URL SCHEMA agentDid) w = (Throw e, (w2, trace))
    /\ run (main axios_get JSON_parse StringToNumber Number_toString
                 API_URL SCHEMA agentDid) w = (Throw e, (w2, trace))
    /\ console trace = [].
Proof.
  intros agentDid served w w1 w2 e k failing trace Hs Hlt Hfail.
  assert (Hget : run (getReviewsForAgent axios_get API_URL SCHEMA agentDid) w
                 = (Throw e, (w2, trace))).
  { subst trace failing k. destruct served as [|p1 ps].
    - inversion Hs; subst. cbn [List.length Z.of_nat] in *.
      unfold run, getReviewsForAgent, bind, get, perform.
      change (1 + 0) with 1 in Hfail. rewrite Hfail. reflexivity.
    - cbn [List.length] in *. rewrite pageNumbers_succ in *. cbn [map] in *.
      inversion Hs as [|u us p' ps' w0 w3 w4 Hp1 Hrest]; subst.
      unfold run, getReviewsForAgent, bind, get, perform. rewrite Hp1.
      cbn [app]. unfold pagesRequested in Hlt.
      destruct (1 <? totalPages p1) eqn:Htp; [|lia].
      apply Z.ltb_lt in Htp.
      change (1 + 1) with 2 in Hrest.
      replace (1 + Z.of_nat (S (List.length ps)))
        with (2 + Z.of_nat (List.length ps)) in * by lia.
      rewrite (fetchPages_fails agentDid ps (Z.to_nat (totalPages p1 - 1)) 2
                 (data p1) w3 w1 w2 _ e Hrest Hfail) by lia.
      reflexivity. }
  split; [exact Hget|]. split.
  - unfold run, main, bind in *. now rewrite Hget.
  - subst trace. unfold console. rewrite flat_map_app. cbn [flat_map app].
    rewrite app_nil_r. unfold fetched.
    induction (combine (map (url API_URL SCHEMA agentDid) (pageNumbers 1 k)) served)
      as [|x l IH]; [reflexivity|exact IH].
Qed.

Lemma fieldsOf_rated (reviews : list Attestation) :
  forall (fs : list (Field * Field)),
    map (fieldsOf JSON_parse) reviews = map Some fs ->
    rated JSON_parse reviews (map (fun entry => f_value (fst entry)) fs).
Proof.
  unfold rated.
  induction reviews as [|r reviews IH]; intros [|f fs] H; try discriminate;
    [reflexivity|].
  cbn [map] in *. injection H as Hr Hrest. f_equal; [|now apply IH].
  unfold fieldsOf in Hr. unfold starsOf.
  destruct (JSON_parse (decodedDataJson r)) as [decoded|e]; [|discriminate].
  destruct (findField "stars" decoded) as [s|]; [|discriminate].
  destruct (findField "comment" decoded) as [c|]; [|discriminate].
  now injection Hr as <-.
Qed.

Lemma printReviews_complete (reviews : list Attestation) :
  forall (fs : list (Field * Field)) (w : W) (tr : list Event),
    map (fieldsOf JSON_parse) reviews = map Some fs ->
    printReviews JSON_parse Number_toString reviews (w, tr)
    = (Ok tt,
       (w, (tr ++ logged (flat_map (reviewLines Number_toString)
                                   (combine reviews fs)))%list)).
Proof.
  induction reviews as [|r reviews IH]; intros [|[s c] fs] w tr H; try discriminate.
  - cbn. now rewrite app_nil_r.
  - cbn [map] in H. injection H as Hr Hrest.
    cbn [printReviews]. unfold bind at 1. unfold printReview at 1.
    unfold fieldsOf in Hr. unfold bind at 1, lift at 1.
    destruct (JSON_parse (decodedDataJson r)) as [decoded|e]; [|discriminate].
    destruct (findField "stars" decoded) as [s'|]; [|discriminate].
    destruct (findField "comment" decoded) as [c'|]; [|discriminate].
    injection Hr as -> ->.
    unfold bind, log. rewrite (IH fs w _ Hrest).
    cbn [combine flat_map reviewLines fst snd logged map app].
    unfold logged, reviewLine.
    now rewrite <- !app_assoc.
Qed.

(** When every fetched record parses and has a field [stars] and a field
    [comment], whatever their positions among the fields, the script
    succeeds and prints, after what the fetch left in the trace, the agent
    line, the average line and two lines per review, in fetch order. *)
Theorem listing_prints_every_review :
  forall (agentDid : option string) (w : W) (reviews : list Attestation)
         (s1 : W * list Event) (fs : list (Field * Field)),
    run (getReviewsForAgent axios_get API_URL SCHEMA agentDid) w = (Ok reviews, s1) ->
    map (fieldsOf JSON_parse) reviews = map Some fs ->
    run (main axios_get JSON_parse StringToNumber Number_toString
              API_URL SCHEMA agentDid) w
    = (Ok tt,
       (fst s1,
        (snd s1
         ++ logged (headerLines StringToNumber Number_toString agentDid
                                (map (fun entry => f_value (fst entry)) fs)
                    ++ flat_map (reviewLines Number_toString) (combine reviews fs)))%list)).
Proof.
  intros agentDid w reviews [w1 tr1] fs Hfetch Hfs.
  pose proof (fieldsOf_rated reviews fs Hfs) as Hrated.
  pose proof (rated_length JSON_parse _ _ Hrated) as Hlen.
  rewrite length_map in Hlen.
  unfold run, main, bind in *. rewrite Hfetch.
  unfold lift, totalStars.
  rewrite (reduce_addStars_rated JSON_parse StringToNumber reviews _ _ Hrated).
  unfold log at 1 2.
  rewrite (printReviews_complete reviews fs w1 _ Hfs).
  cbn [fst snd]. unfold headerLines, sumStars, logged.
  rewrite length_map, <- Hlen, map_app. cbn [map app].
  now rewrite <- !app_assoc.
Qed.

(** A record without a field [comment] stops the listing half-way: when
    every record has its rating, the records before it are complete, and
    it has no comment, the script prints the agent line, the average line,
    the lines of the records before it and the first line of that record,
    then throws and exits with status 1. *)
Theorem missing_comment_stops_mid_listing :
  forall (agentDid : option string) (w : W) (s1 : W * list Event)
         (done rest : list Attestation) (att : Attestation)
         (fs : list (Field * Field)) (ratings : list JVal)
         (decoded : list Field) (starsField : Field),
    run (getReviewsForAgent axios_get API_URL SCHEMA agentDid) w
    = (Ok (done ++ att :: rest)%list, s1) ->
    rated JSON_parse (done ++ att :: rest) ratings ->
    map (fieldsOf JSON_parse) done = map Some fs ->
    JSON_parse (decodedDataJson att) = Ok decoded ->
    findField "stars" decoded = Some starsField ->
    findField "comment" decoded = None ->
    run (main axios_get JSON_parse StringToNumber Number_toString
              API_URL SCHEMA agentDid) w
    = (Throw undefined_value,
       (fst s1,
        (snd s1
         ++ logged (headerLines StringToNumber Number_toString agentDid ratings
                    ++ flat_map (reviewLines Number_toString) (combine done fs)
                    ++ [reviewLine Number_toString att starsField]))%list)).
Proof.
  intros agentDid w [w1 tr1] done rest att fs ratings decoded starsField
         Hfetch Hrated Hdone Hparse Hstars Hcomment.
  pose proof (rated_length JSON_parse _ _ Hrated) as Hlen.
  unfold run, main, bind in *. rewrite Hfetch.
  unfold lift, totalStars.
  rewrite (reduce_addStars_rated JSON_parse StringToNumber _ _ _ Hrated).
  unfold log at 1 2.
  assert (Hprint : forall tr,
             printReviews JSON_parse Number_toString (done ++ att :: rest) (w1, tr)
             = (Throw undefined_value,
                (w1, (tr ++ logged (flat_map (reviewLines Number_toString)
                                             (combine done fs)
                                    ++ [reviewLine Number_toString att starsField]))%list))).
  { clear - Hdone Hparse Hstars Hcomment. revert fs Hdone.
    induction done as [|r done IH]; intros [|[s c] fs] Hdone tr; try discriminate.
    - cbn [app printReviews combine flat_map logged map].
      unfold bind at 1. unfold printReview at 1. unfold bind at 1, lift at 1.
      rewrite Hparse, Hstars. unfold bind at 1, log at 1. rewrite Hcomment.
      reflexivity.
    - cbn [map] in Hdone. injection Hdone as Hr Hrest.
      cbn [app printReviews]. unfold bind at 1. unfold printReview at 1.
      unfold fieldsOf in Hr. unfold bind at 1, lift at 1.
      destruct (JSON_parse (decodedDataJson r)) as [d|e]; [|discriminate].
      destruct (findField "stars" d) as [s'|]; [|discriminate].
      destruct (findField "comment" d) as [c'|]; [|discriminate].
      injection Hr as -> ->.
      unfold bind, log. rewrite (IH fs Hrest).
      cbn [combine flat_map reviewLines fst snd app].
      unfold logged, reviewLine.
      repeat (progress (rewrite ?map_app, <- ?app_assoc; cbn [map app])).
      reflexivity. }
  rewrite Hprint.
  cbn [fst snd]. unfold headerLines, sumStars, logged.
  rewrite <- Hlen, !map_app. cbn [map app].
  now rewrite <- !app_assoc.
Qed.

End ListingMoreFacts.

Section FieldLookupFacts.
Import IdentityReviews.

Lemma findField_found (fieldName : string) (fields : list Field) (field : Field) :
  NoDup (map f_name fields) ->
  In field fields ->
  f_name field = fieldName ->
  findField fieldName fields = Some field.
Proof.
  unfold findField.
  induction fields as [|f fields IH]; intros Hnd Hin Hname; [contradiction|].
  cbn [map] in Hnd. inversion Hnd as [|x l Hnotin Hnd']; subst.
  cbn [find]. destruct Hin as [->|Hin].
  - now rewrite String.eqb_refl.
  - destruct (String.eqb_spec (f_name f) (f_name field)) as [Heq|_].
    + exfalso. apply Hnotin. rewrite Heq. now apply in_map.
    + now apply IH.
Qed.

(** The lookup of a field is by name and not by position: when the names
    of the fields are distinct, reordering the fields does not change the
    field found for a name, nor whether one is found. *)
Theorem findField_ignores_order :
  forall (fieldName : string) (fields reordered : list Field),
    NoDup (map f_name fields) ->
    Permutation fields reordered ->
    findField fieldName reordered = findField fieldName fields.
Proof.
  intros fieldName fields reordered Hnd Hperm.
  assert (Hnd' : NoDup (map f_name reordered)).
  { eapply Permutation_NoDup; [|exact Hnd]. now apply Permutation_map. }
  destruct (findField fieldName fields) as [field|] eqn:Hf.
  - unfold findField in Hf. apply find_some in Hf as [Hin Hname].
    apply String.eqb_eq in Hname.
    apply findField_found; auto.
    eapply Permutation_in; eauto.
  - destruct (findField fieldName reordered) as [field|] eqn:Hr; [|reflexivity].
    exfalso. unfold findField in Hr, Hf. apply find_some in Hr as [Hin Hname].
    apply (Permutation_in _ (Permutation_sym Hperm)) in Hin.
    pose proof (find_none _ _ Hf _ Hin) as Hno. cbv beta in Hno. congruence.
Qed.

End FieldLookupFacts.

(** ** More on the proof bundle *)

Section WalletSetupMoreFacts.
Import WalletSetup.

(** [prepareZkpProof] fails exactly when [pi_b] has fewer than two rows,
    with the error of reading an index of [undefined]; when it succeeds,
    [a] and [c] hold at most two elements, as many as [pi_a] and [pi_c]
    have among their first two, and [b] is always two rows of two entries,
    an entry being [undefined] where the row of [pi_b] is too short. *)
Theorem prepareZkpProof_outcome :
  forall (p : ProofData),
    match prepareZkpProof p with
    | Ok q =>
      (2 <= List.length (pi_b p))%nat
      /\ List.length (a q) = Nat.min 2 (List.length (pi_a p))
      /\ List.length (c q) = Nat.min 2 (List.length (pi_c p))
      /\ List.length (b q) = 2%nat
      /\ Forall (fun row => List.length row = 2%nat) (b q)
      /\ (forall i j row,
             (i < 2)%nat -> (j < 2)%nat ->
             nth_error (pi_b p) i = Some row ->
             nth_error (nth i (b q) []) j = Some (nth_error row (1 - j)))
    | Throw e =>
      (List.length (pi_b p) < 2)%nat
      /\ e = TypeError "Cannot read properties of undefined"
    end.
Proof.
  intros [pa pb pc proto]. unfold prepareZkpProof, row_at. cbn [pi_a pi_b pi_c].
  destruct pb as [|r0 [|r1 rest]]; cbn [nth_error List.length a b c].
  - split; [lia|reflexivity].
  - split; [lia|reflexivity].
  - unfold slice0. rewrite !length_firstn.
    repeat split; try lia; try (repeat constructor).
    intros i j row Hi Hj Hrow.
    destruct i as [|[|i]]; [| |lia]; cbn [nth_error nth] in *;
      injection Hrow as <-;
      (destruct j as [|[|j]]; [reflexivity|reflexivity|lia]).
Qed.

End WalletSetupMoreFacts.

(** ** The revocation script *)

Section RevokeFacts.
Import Revoke ObserveMore.

Context {W : Type}.
Variable Wallet_new : string -> string -> Result Wallet.
Variable revokeAttestation : Contract -> string -> W -> Result Tx * W.
Variable wait : Tx -> W -> Result (option Receipt) * W.

Lemma revoke_checkRequiredParams_firstMissing (cfg : Config) :
  checkRequiredParams cfg
  = match firstMissing (revokeRequired cfg) with
    | Some variable => Throw (Attest.not_defined variable)
    | None => Ok tt
    end.
Proof.
  unfold checkRequiredParams, firstMissing, revokeRequired.
  cbn [find snd fst].
  repeat (match goal with |- context [falsy ?x] => destruct (falsy x) end;
          [reflexivity|]).
  reflexivity.
Qed.

(** A revocation is submitted only when the four settings are set, the
    wallet could be built and a non-empty identifier was given; it is then
    the only call besides the wait for its inclusion, it goes to the
    registry at the configured address, driven by that wallet, for exactly
    the identifier given, and the script succeeds exactly when the
    inclusion was awaited without error.  The script never authenticates
    and never reads the attestation it revokes. *)
Theorem revocation_is_validated_and_direct :
  forall (cfg : Config) (id : option string) (w : W) res s' registry attestationId r,
    run (main Wallet_new revokeAttestation wait cfg id) w = (res, s') ->
    In (RevokeAttestation registry attestationId r) (snd s') ->
    firstMissing (revokeRequired cfg) = None
    /\ id = Some attestationId
    /\ attestationId <> ""
    /\ Wallet_new (template (rv_privateKey cfg)) (template (rv_rpcUrl cfg))
       = Ok (runner registry)
    /\ target registry = template (rv_attestationRegistryContractAddress cfg)
    /\ match r with
       | Throw e => res = Throw e /\ snd s' = [RevokeAttestation registry attestationId r]
       | Ok tx =>
         exists included,
           snd s' = [RevokeAttestation registry attestationId r; Wait tx included]
           /\ res = match included with Ok _ => Ok tt | Throw e => Throw e end
       end.
Proof.
  intros cfg id w res s' registry attestationId r H Hin.
  pose proof (revoke_checkRequiredParams_firstMissing cfg) as Hcfg.
  unfold run, main, bind, perform, lift, throw, ret in H.
  repeat (step_in H; try discriminate); injection H as <- <-;
    cbn [snd] in Hin;
    repeat (destruct Hin as [Hin|Hin]; [try discriminate|]); try contradiction.
  all: injection Hin as <- <- <-.
  all: try match goal with
           | Hc : checkRequiredParams _ = Ok _ |- _ => rewrite Hc in Hcfg
           end.
  all: destruct (firstMissing (revokeRequired cfg)); [discriminate|].
  all: destruct id as [i|]; [|discriminate].
  all: match goal with
       | Hf : falsy (Some _) = false |- _ => cbn [falsy] in Hf; apply String.eqb_neq in Hf
       end.
  all: cbn [template runner target snd].
  all: repeat split; auto.
  all: eexists; split; reflexivity.
Qed.

End RevokeFacts.

(** ** More runs against the canned environments *)

Section MoreRuns.
Import Utils Attest Observe ObserveMore MockChain MockMore.

(** A registry without the schema. *)
Lemma unknown_schema_run :
  let E := without_schema (externals false rebinding []) in
  let out := run (checkAuthenticationAuthV2 E schema signer opts) unbound in
  fst out = Throw (schema_not_found schema)
  /\ map kind (snd (snd out)) = [KCreateIdentity; KGetSchema]
  /\ writes (snd (snd out)) = [].
Proof.
  intros E out.
  apply (unknown_schema_stops_the_run E schema signer opts unbound (fst out) (snd out)
           {| sr_id := ZeroHash; sr_schema := ""; sr_resolver := ZeroAddress;
              sr_revocable := false |} (surjective_pairing out)).
  - vm_compute. right. left. reflexivity.
  - reflexivity.
Defined.

(** A verifier that does not know the method: the proof is generated, no
    response is submitted. *)
Lemma unregistered_method_run :
  let E := with_authMethod false (externals false rebinding []) in
  let out := run (checkAuthenticationAuthV2 E schema signer opts) unbound in
  fst out = Throw (user_authentication_failed (could_not_authenticate method_error))
  /\ writes (snd (snd out)) = []
  /\ map kind (snd (snd out))
     = (lookupCalls ++ [KGenerateAuthProof; KAuthMethodExists])%list.
Proof.
  intros E out.
  assert (Hrun : out = (Throw (user_authentication_failed
                                 (could_not_authenticate method_error)), snd out))
    by (vm_compute; reflexivity).
  destruct (authentication_failures_are_masked E schema signer opts unbound _ (snd out)
              "authV2" (Ok false) Hrun) as [_ Hfalse].
  - vm_compute. do 5 right. left. reflexivity.
  - destruct (Hfalse eq_refl) as (_ & Hw & Hk).
    split; [rewrite Hrun; reflexivity|]. split; assumption.
Defined.

(** A verifier that rejects the response: what the caller sees does not
    mention the rejection. *)
Lemma rejected_response_run :
  let E := with_rejection execution_reverted (externals false rebinding []) in
  let out := run (checkAuthenticationAuthV2 E schema signer opts) unbound in
  fst out = Throw (user_authentication_failed (could_not_authenticate method_error))
  /\ last (snd (snd out)) (GetDefaultIdType (Ok ""))
     = SubmitResponse {| authMethod := "authV2"; ar_proof := "0xda7a" |}
                      (Throw execution_reverted).
Proof.
  vm_compute. split; reflexivity.
Qed.

(** The review script against the canned chain: one request, for the
    identity just created and bound. *)
Lemma recorded_attestation_run :
  let E := externals false rebinding [recordedLog] in
  let out := run (main E createReview (config schema) reviewValues) unbound in
  recorded (snd (snd out))
  = [ {| rq_schemaId := schema;
         rq_attester := {| did := "did:1"; iden3Id := IdBig 1;
                           ethereumAddress := address signer |};
         rq_recipient := {| did := "did:iden3:billions:test:agent";
                            iden3Id := IdStr "0";
                            ethereumAddress := ZeroAddress |};
         rq_expirationTime := 0;
         rq_revocable := true;
         rq_refId := ZeroHash;
         rq_data := "0xda7a" |} ]
  /\ lastBinding (snd (snd out)) <> 0
  /\ fst out = Ok tt.
Proof.
  intros E out.
  destruct (recorded_attestation_names_the_local_identity E createReview (config schema)
              reviewValues unbound (fst out) (snd out)
              {| rq_schemaId := schema;
                 rq_attester := {| did := "did:1"; iden3Id := IdBig 1;
                                   ethereumAddress := address signer |};
                 rq_recipient := {| did := "did:iden3:billions:test:agent";
                                    iden3Id := IdStr "0";
                                    ethereumAddress := ZeroAddress |};
                 rq_expirationTime := 0;
                 rq_revocable := true;
                 rq_refId := ZeroHash;
                 rq_data := "0xda7a" |}
              (surjective_pairing out))
    as (wallet & A & userDid & data & _ & _ & _ & _ & Hl & Hrec & _).
  - vm_compute. left. reflexivity.
  - split; [exact Hrec|]. split; [exact Hl|]. vm_compute. reflexivity.
Defined.

(** A registry that reports the new attestation as not valid: the script
    succeeds all the same. *)
Lemma invalid_attestation_run :
  let E := with_validity false (externals false rebinding [foreignLog; recordedLog]) in
  let out := run (main E createOwnership (config schema) reviewValues) unbound in
  In (IsAttestationValid (Some "0x2a") (Ok false)) (snd (snd out))
  /\ fst out = Ok tt
  /\ exit_code (fst out) = 0.
Proof.
  intros E out.
  assert (Hin : In (IsAttestationValid (Some "0x2a") (Ok false)) (snd (snd out)))
    by (vm_compute; do 12 right; left; reflexivity).
  split; [exact Hin|].
  exact (validity_is_not_checked E createOwnership (config schema) reviewValues unbound
           (fst out) (snd out) _ _ (surjective_pairing out) Hin).
Defined.

(** The response submitted on the canned chain. *)
Lemma submitted_response_run :
  let E := externals false rebinding [] in
  let out := run (checkAuthenticationAuthV2 E schema signer opts) unbound in
  exists userDID challenge zkpRes prepared,
    created (snd (snd out)) = [userDID]
    /\ calcChallengeAuthV2 E (address signer) = Ok challenge
    /\ In (GenerateAuthProof "authV2" userDID challenge (Ok zkpRes)) (snd (snd out))
    /\ In (AuthMethodExists "authV2" (Ok true)) (snd (snd out))
    /\ WalletSetup.prepareZkpProof (proof zkpRes) = Ok prepared
    /\ AbiCoder_encode E
         ["uint256[] inputs"; "uint256[2]"; "uint256[2][2]"; "uint256[2]"]
         [ WalletSetup.VStrs (pub_signals zkpRes);
           WalletSetup.VStrs (WalletSetup.a prepared);
           WalletSetup.VArr
             (map (fun r => WalletSetup.VArr (map WalletSetup.VOpt r))
                  (WalletSetup.b prepared));
           WalletSetup.VStrs (WalletSetup.c prepared) ]
       = Ok "0xda7a"%string
    /\ authMethod {| authMethod := "authV2"; ar_proof := "0xda7a" |} = "authV2".
Proof.
  intros E out.
  apply (submitted_response_carries_generated_proof E schema signer opts unbound
           (fst out) (snd out) {| authMethod := "authV2"; ar_proof := "0xda7a" |}
           (Ok authTx) (surjective_pairing out)).
  vm_compute. do 6 right. left. reflexivity.
Defined.

End MoreRuns.

Section MoreListingRuns.
Import IdentityReviews ObserveIndex ObserveMore MockIndex MockMore.

Lemma two_pages_served :
  serves axios_get_failing (map url_of (pageNumbers 1 2)) [page1; page2] tt tt.
Proof.
  repeat (eapply serves_cons; [reflexivity|]). apply serves_nil.
Qed.

(** The third of three pages fails: two pages were fetched, none of their
    forty items is returned, and the script prints nothing. *)
Lemma failed_third_page_run :
  let trace :=
      (fetched [url_of 1; url_of 2] [page1; page2]
       ++ [HttpGet (url_of 3) (Throw gateway_timeout)])%list in
  run (getReviewsForAgent axios_get_failing API_URL SCHEMA agent) tt
  = (Throw gateway_timeout, (tt, trace))
  /\ run (main axios_get_failing MockMore.JSON_parse StringToNumber
               MockMore.Number_toString API_URL SCHEMA agent) tt
     = (Throw gateway_timeout, (tt, trace))
  /\ console trace = [].
Proof.
  intros trace.
  apply (failed_page_aborts_listing axios_get_failing MockMore.JSON_parse
           StringToNumber MockMore.Number_toString API_URL SCHEMA agent
           [page1; page2] tt tt tt gateway_timeout two_pages_served).
  - vm_compute. lia.
  - reflexivity.
Defined.

(** Two complete reviews, the second with its fields in the other order. *)
Lemma complete_listing_run :
  let out := run (main (single_page complete_reviews) MockMore.JSON_parse
                       StringToNumber MockMore.Number_toString API_URL SCHEMA agent)
                 tt in
  fst out = Ok tt
  /\ console (snd (snd out))
     = [ "🆔 Agent DID: did:iden3:billions:test:agent";
         "⭐ 4.50 (2 reviews)";
         "  📋 Review by did:a. ⭐ 5"; "  fine";
         "  📋 Review by did:b. ⭐ 4"; "  good" ].
Proof.
  intros out. subst out.
  rewrite (listing_prints_every_review (single_page complete_reviews)
             MockMore.JSON_parse StringToNumber MockMore.Number_toString
             API_URL SCHEMA agent tt complete_reviews
             (tt, [HttpGet (url_of 1) (Ok {| data := complete_reviews;
                                             totalPages := 1 |})])
             [ ({| f_name := "stars"; f_value := JNum (number_of_Z 5) |},
                {| f_name := "comment"; f_value := JStr "fine" |});
               ({| f_name := "stars"; f_value := JNum (number_of_Z 4) |},
                {| f_name := "comment"; f_value := JStr "good" |}) ]
             eq_refl eq_refl).
  vm_compute. split; reflexivity.
Defined.

(** Three rated reviews, the second without comment: the listing stops
    after the first line of the second. *)
Lemma uncommented_listing_run :
  let out := run (main (single_page uncommented_reviews) MockMore.JSON_parse
                       StringToNumber MockMore.Number_toString API_URL SCHEMA agent)
                 tt in
  fst out = Throw undefined_value
  /\ console (snd (snd out))
     = [ "🆔 Agent DID: did:iden3:billions:test:agent";
         "⭐ 4.00 (3 reviews)";
         "  📋 Review by did:a. ⭐ 5"; "  fine";
         "  📋 Review by did:b. ⭐ 3" ].
Proof.
  intros out. subst out.
  rewrite (missing_comment_stops_mid_listing (single_page uncommented_reviews)
             MockMore.JSON_parse StringToNumber MockMore.Number_toString
             API_URL SCHEMA agent tt
             (tt, [HttpGet (url_of 1) (Ok {| data := uncommented_reviews;
                                             totalPages := 1 |})])
             [by_ "did:a" "5 fine"] [by_ "did:c" "4 good"] (by_ "did:b" "3")
             [ ({| f_name := "stars"; f_value := JNum (number_of_Z 5) |},
                {| f_name := "comment"; f_value := JStr "fine" |}) ]
             [JNum (number_of_Z 5); JNum (number_of_Z 3); JNum (number_of_Z 4)]
             [ {| f_name := "stars"; f_value := JNum (number_of_Z 3) |} ]
             {| f_name := "stars"; f_value := JNum (number_of_Z 3) |}
             eq_refl eq_refl eq_refl eq_refl eq_refl eq_refl).
  vm_compute. split; reflexivity.
Defined.

(** The rating is found whether it comes first or last. *)
Lemma findField_ignores_order_swap :
  findField "stars"
            [ {| f_name := "comment"; f_value := JStr "fine" |};
              {| f_name := "stars"; f_value := JNum (number_of_Z 5) |} ]
  = findField "stars"
              [ {| f_name := "stars"; f_value := JNum (number_of_Z 5) |};
                {| f_name := "comment"; f_value := JStr "fine" |} ].
Proof.
  apply findField_ignores_order.
  - repeat constructor; cbn; intuition discriminate.
  - apply perm_swap.
Defined.

End MoreListingRuns.

Section RevokeRuns.
Import Revoke ObserveMore MockRevoke.

(** Revoking ["0x2a"] on the canned registry. *)
Lemma revocation_run :
  let out := run (main Wallet_new revokeAttestation wait config (Some "0x2a")) [] in
  fst out = Ok tt
  /\ fst (snd out) = ["0x2a"]
  /\ List.length (snd (snd out)) = 2%nat.
Proof.
  intros out.
  destruct (revocation_is_validated_and_direct Wallet_new revokeAttestation wait
              config (Some "0x2a") [] (fst out) (snd out)
              {| target := "0xa77e57";
                 runner := {| privateKey := "0x5ec"; address := "0x51c9e2" |} |}
              "0x2a" (Ok revokeTx) (surjective_pairing out))
    as (_ & _ & _ & _ & _ & included & Htrace & Hres).
  - vm_compute. left. reflexivity.
  - split; [vm_compute; reflexivity|]. split; [vm_compute; reflexivity|].
    rewrite Htrace. reflexivity.
Defined.

End RevokeRuns.
